(** * Verification of the cache, routing and formatting core of the
    financial-query assistant (src/cache, src/agents, src/tools).

    Python values are embedded shallowly:
    - a Python [str] is a list of Unicode code points ([text] = [list Z]);
      literals in this file are written as UTF-8 Rocq strings and decoded
      by [u];
    - [str.lower] / [str.upper] are per-code-point maps covering ASCII and
      the Latin-1 supplement (the only non-ASCII letters the sources use);
    - dicts are association lists kept in insertion order (the order
      Python iterates them in), or stdpp [gmap]s where order is irrelevant;
    - time ([datetime.now()]) is an integer count of microseconds since
      [datetime.min]. *)

From Stdlib Require Import ZArith String Ascii Bool Lia.
From stdpp Require Import base list gmap sorting.

Local Open Scope Z_scope.

Abbreviation text := (list Z) (only parsing).

(* ------------------------------------------------------------------ *)
(** ** Text *)

(** Decoding of a UTF-8 Rocq string literal into code points. *)
Fixpoint u (s : string) : text :=
  match s with
  | EmptyString => []
  | String a s1 =>
      let b := Z.of_nat (nat_of_ascii a) in
      if b <? 128 then b :: u s1
      else if b <? 224 then
        match s1 with
        | String a2 s2 =>
            Z.lor (Z.shiftl (Z.land b 31) 6) (Z.land (Z.of_nat (nat_of_ascii a2)) 63)
              :: u s2
        | EmptyString => [b]
        end
      else if b <? 240 then
        match s1 with
        | String a2 (String a3 s3) =>
            Z.lor (Z.shiftl (Z.land b 15) 12)
              (Z.lor (Z.shiftl (Z.land (Z.of_nat (nat_of_ascii a2)) 63) 6)
                     (Z.land (Z.of_nat (nat_of_ascii a3)) 63)) :: u s3
        | _ => [b]
        end
      else
        match s1 with
        | String a2 (String a3 (String a4 s4)) =>
            Z.lor (Z.shiftl (Z.land b 7) 18)
              (Z.lor (Z.shiftl (Z.land (Z.of_nat (nat_of_ascii a2)) 63) 12)
                (Z.lor (Z.shiftl (Z.land (Z.of_nat (nat_of_ascii a3)) 63) 6)
                       (Z.land (Z.of_nat (nat_of_ascii a4)) 63))) :: u s4
        | _ => [b]
        end
  end.
Arguments u _%_string_scope.

(** [str.lower] on one code point: ASCII and Latin-1 capitals. *)
Definition cp_lower (c : Z) : Z :=
  if (65 <=? c) && (c <=? 90) then c + 32
  else if (192 <=? c) && (c <=? 222) && negb (c =? 215) then c + 32
  else c.

(** [str.upper] on one code point: ASCII and Latin-1 small letters
    (U+00DF and U+00FF, whose upper case lies outside Latin-1, are kept). *)
Definition cp_upper (c : Z) : Z :=
  if (97 <=? c) && (c <=? 122) then c - 32
  else if (224 <=? c) && (c <=? 254) && negb (c =? 247) then c - 32
  else c.

Definition lower (s : text) : text := map cp_lower s.
Definition upper (s : text) : text := map cp_upper s.

Fixpoint prefixb (k s : text) : bool :=
  match k, s with
  | [], _ => true
  | x :: k', y :: s' => (x =? y) && prefixb k' s'
  | _ :: _, [] => false
  end.

(** Python's [k in s] on strings. *)
Fixpoint contains (k s : text) : bool :=
  prefixb k s || match s with [] => false | _ :: s' => contains k s' end.

(** Python's [sep.join(parts)]. *)
Fixpoint join (sep : text) (parts : list text) : text :=
  match parts with
  | [] => []
  | [p] => p
  | p :: ps => p ++ sep ++ join sep ps
  end.

Definition nl : text := [10].

(* ------------------------------------------------------------------ *)
(** ** Ticker resolution: [SimpleFinancialAgent._extract_ticker] *)

(** [TICKER_PATTERNS], in insertion (= iteration) order. *)
Definition TICKER_PATTERNS : list (text * text) :=
  [ (u "nvidia", u "NVDA"); (u "nvda", u "NVDA");
    (u "tesla", u "TSLA"); (u "tsla", u "TSLA");
    (u "apple", u "AAPL"); (u "aapl", u "AAPL");
    (u "microsoft", u "MSFT"); (u "msft", u "MSFT");
    (u "amazon", u "AMZN"); (u "amzn", u "AMZN");
    (u "google", u "GOOGL"); (u "googl", u "GOOGL"); (u "goog", u "GOOGL");
    (u "alphabet", u "GOOGL");
    (u "meta", u "META"); (u "facebook", u "META");
    (u "netflix", u "NFLX"); (u "nflx", u "NFLX");
    (u "amd", u "AMD");
    (u "intel", u "INTC"); (u "intc", u "INTC") ].

(** Regex [\w] on one code point: ASCII alphanumerics and [_], and the
    letters of the Latin, Greek and Cyrillic blocks. *)
Definition isword (c : Z) : bool :=
  ((48 <=? c) && (c <=? 57)) || ((65 <=? c) && (c <=? 90)) ||
  ((97 <=? c) && (c <=? 122)) || (c =? 95) ||
  (c =? 170) || (c =? 181) || (c =? 186) ||
  ((192 <=? c) && (c <=? 214)) || ((216 <=? c) && (c <=? 246)) ||
  ((248 <=? c) && (c <=? 705)) ||
  ((880 <=? c) && (c <=? 1023) && negb (c =? 894) && negb (c =? 903)) ||
  ((1024 <=? c) && (c <=? 1153)) || ((1162 <=? c) && (c <=? 1327)).

Definition isword_opt (c : option Z) : bool :=
  match c with Some c => isword c | None => false end.

Definition is_AZ (c : Z) : bool := (65 <=? c) && (c <=? 90).

(** Number of leading [[A-Z]] characters of [s], at most [n]. *)
Fixpoint upper_run (s : text) (n : nat) : nat :=
  match n, s with
  | S n', c :: s' => if is_AZ c then S (upper_run s' n') else O
  | _, _ => O
  end.

(** Backtracking of the greedy [[A-Z]{2,5}] followed by [\b]: lengths
    [k], [k-1], ..., [2] are tried in turn. *)
Fixpoint try_len (s : text) (k : nat) : option text :=
  match k with
  | O => None
  | S k' =>
      if (2 <=? k)%nat && negb (isword_opt (s !! k)) then Some (take k s)
      else try_len s k'
  end.

(** [\b([A-Z]{2,5})\b] anchored at a position whose previous character is
    [prev] and whose remaining input is [s]. *)
Definition try_at (prev : option Z) (s : text) : option text :=
  if negb (isword_opt prev) && isword_opt (head s) then try_len s (upper_run s 5)
  else None.

(** [re.search]: the leftmost match. *)
Fixpoint re_search_from (prev : option Z) (s : text) : option text :=
  match try_at prev s with
  | Some m => Some m
  | None => match s with [] => None | c :: s' => re_search_from (Some c) s' end
  end.

Definition re_search (s : text) : option text := re_search_from None s.

Fixpoint find_alias (ql : text) (tbl : list (text * text)) : option text :=
  match tbl with
  | [] => None
  | (kw, t) :: tbl' => if contains kw ql then Some t else find_alias ql tbl'
  end.

Definition ticker_values : list text := map snd TICKER_PATTERNS.

Definition in_values (t : text) : bool := existsb (fun v => bool_decide (v = t)) ticker_values.

Definition extract_ticker (query : text) : option text :=
  match find_alias (lower query) TICKER_PATTERNS with
  | Some t => Some t
  | None =>
      match re_search query with
      | Some m => if in_values m then Some m else None
      | None => None
      end
  end.

(** [re.finditer]: all non-overlapping matches, left to right; the scan
    resumes right after each match.  [fuel] bounds the number of steps. *)
Fixpoint re_finditer_from (fuel : nat) (prev : option Z) (s : text) : list text :=
  match fuel with
  | O => []
  | S f =>
      match try_at prev s with
      | Some m => m :: re_finditer_from f (last m) (drop (length m) s)
      | None => match s with [] => [] | c :: s' => re_finditer_from f (Some c) s' end
      end
  end.

Definition re_finditer (s : text) : list text := re_finditer_from (S (length s)) None s.

(** The resolver as section 4.2 of the spec words it: step 1 returns the
    canonical symbol of the first alias of the table found in the
    lower-cased text; step 2 returns the first upper-case 2-5 letter
    token of the original text that is a canonical symbol. *)
Definition resolve_spec (query : text) : option text :=
  match List.find (fun p => contains (fst p) (lower query)) TICKER_PATTERNS with
  | Some p => Some (snd p)
  | None => List.find in_values (re_finditer query)
  end.

(* ------------------------------------------------------------------ *)
(** ** Query analysis: [MultiAgentOrchestrator._analyze_query] *)

Definition financial_keywords : list text :=
  [ u "stock"; u "price"; u "share"; u "market"; u "ticker"; u "symbol";
    u "earnings"; u "revenue"; u "profit"; u "dividend"; u "pe ratio";
    u "analyst"; u "recommendation"; u "target"; u "fundamental";
    u "action"; u "bourse"; u "cours"; u "résultats"; u "analyse" ].

Definition company_keywords : list text :=
  [ u "nvidia"; u "nvda"; u "tesla"; u "tsla"; u "apple"; u "aapl";
    u "microsoft"; u "msft"; u "amazon"; u "amzn"; u "google"; u "googl";
    u "meta"; u "facebook"; u "netflix"; u "nflx"; u "amd"; u "intel"; u "intc" ].

Definition news_keywords : list text :=
  [ u "news"; u "latest"; u "recent"; u "today"; u "breaking"; u "update";
    u "actualité"; u "dernières"; u "récentes"; u "contexte"; u "marché" ].

Record analysis := { needs_financial : bool; needs_news : bool }.

(** [any(k in query_lower for k in kws)] *)
Definition any_in (kws : list text) (ql : text) : bool :=
  existsb (fun k => contains k ql) kws.

Definition analyze_query (query : text) : analysis :=
  let query_lower := lower query in
  let has_financial := any_in financial_keywords query_lower in
  let has_company := any_in company_keywords query_lower in
  let has_news := any_in news_keywords query_lower in
  {| needs_financial := has_financial || has_company; needs_news := has_news |}.

(** Substring occurrence, as a proposition. *)
Definition occurs_in (k s : text) : Prop := exists a b, s = a ++ k ++ b.

(* ------------------------------------------------------------------ *)
(** ** Python values and [json.dumps(..., sort_keys=True)] *)

(** The JSON-serialisable Python values the cache stores and hashes. *)
#[local] Set Warnings "-register-all".
Inductive pyval :=
  | PNone
  | PBool (b : bool)
  | PInt (z : Z)
  | PStr (s : text)
  | PList (l : list pyval)
  | PDict (d : list (text * pyval)).

Fixpoint pyval_ind' (P : pyval -> Prop)
    (HN : P PNone) (HB : forall b, P (PBool b)) (HI : forall z, P (PInt z))
    (HS : forall s, P (PStr s))
    (HL : forall l, Forall P l -> P (PList l))
    (HD : forall d, Forall (fun kv => P kv.2) d -> P (PDict d))
    (v : pyval) : P v :=
  let rec := pyval_ind' P HN HB HI HS HL HD in
  match v with
  | PNone => HN
  | PBool b => HB b
  | PInt z => HI z
  | PStr s => HS s
  | PList l =>
      HL l ((fix go l : Forall P l :=
               match l with
               | [] => @List.Forall_nil _ P
               | x :: l' => @List.Forall_cons _ P x l' (rec x) (go l')
               end) l)
  | PDict d =>
      HD d ((fix go d : Forall (fun kv => P kv.2) d :=
               match d with
               | [] => @List.Forall_nil _ _
               | kv :: d' => @List.Forall_cons _ (fun kv => P kv.2) kv d' (rec kv.2) (go d')
               end) d)
  end.

(** Python's [str] ordering: lexicographic on code points. *)
Fixpoint text_leb (a b : text) : bool :=
  match a, b with
  | [], _ => true
  | _ :: _, [] => false
  | x :: a', y :: b' => (x <? y) || ((x =? y) && text_leb a' b')
  end.

Definition key_le (a b : text * text) : Prop := text_leb a.1 b.1 = true.
#[global] Instance key_le_dec : RelDecision key_le :=
  fun a b => decide (text_leb a.1 b.1 = true).

(** [sorted(dct.items())]: a stable sort on the keys (the keys of a dict
    are distinct, so the values are never compared). *)
Definition sort_items (items : list (text * text)) : list (text * text) :=
  merge_sort key_le items.

Definition hex_digit (n : Z) : Z := if n <? 10 then 48 + n else 87 + n.

Definition hex4 (n : Z) : text :=
  [hex_digit (Z.land (Z.shiftr n 12) 15); hex_digit (Z.land (Z.shiftr n 8) 15);
   hex_digit (Z.land (Z.shiftr n 4) 15); hex_digit (Z.land n 15)].

(** One character of a JSON string literal, with [ensure_ascii=True]. *)
Definition json_char (c : Z) : text :=
  if c =? 34 then [92; 34]
  else if c =? 92 then [92; 92]
  else if c =? 10 then [92; 110]
  else if c =? 13 then [92; 114]
  else if c =? 9 then [92; 116]
  else if c =? 8 then [92; 98]
  else if c =? 12 then [92; 102]
  else if (32 <=? c) && (c <=? 126) then [c]
  else if c <? 65536 then [92; 117] ++ hex4 c
  else
    let n := c - 65536 in
    [92; 117] ++ hex4 (Z.lor 55296 (Z.land (Z.shiftr n 10) 1023)) ++
    [92; 117] ++ hex4 (Z.lor 56320 (Z.land n 1023)).

Definition json_str (s : text) : text := [34] ++ flat_map json_char s ++ [34].

Fixpoint pos_digits (fuel : nat) (n : Z) (acc : text) : text :=
  match fuel with
  | O => acc
  | S f => if n <? 10 then (48 + n) :: acc
           else pos_digits f (n / 10) ((48 + n mod 10) :: acc)
  end.

(** [repr] of a Python [int]. *)
Definition int_repr (z : Z) : text :=
  let ds := pos_digits (S (Z.to_nat (Z.log2 (Z.abs z)))) (Z.abs z) [] in
  if z <? 0 then 45 :: ds else ds.

Fixpoint dumps (v : pyval) : text :=
  match v with
  | PNone => u "null"
  | PBool true => u "true"
  | PBool false => u "false"
  | PInt z => int_repr z
  | PStr s => json_str s
  | PList l => u "[" ++ join (u ", ") (map dumps l) ++ u "]"
  | PDict d =>
      u "{" ++
      join (u ", ") (map (fun kv => json_str kv.1 ++ u ": " ++ kv.2)
                       (sort_items (map (fun kv => (kv.1, dumps kv.2)) d))) ++
      u "}"
  end.

(** A well-formed value: every dict has distinct keys. *)
Fixpoint wf_val (v : pyval) : bool :=
  match v with
  | PList l => forallb wf_val l
  | PDict d => bool_decide (NoDup (map fst d)) && forallb (fun kv => wf_val kv.2) d
  | _ => true
  end.

Fixpoint assoc {A} (k : text) (d : list (text * A)) : option A :=
  match d with
  | [] => None
  | (k', x) :: d' => if bool_decide (k = k') then Some x else assoc k d'
  end.

(** Structural equality: Python's [==] on these values (dicts compare as
    maps, independently of field order), atoms compared exactly. *)
Fixpoint struct_eq (v w : pyval) : bool :=
  match v, w with
  | PNone, PNone => true
  | PBool a, PBool b => Bool.eqb a b
  | PInt a, PInt b => a =? b
  | PStr a, PStr b => bool_decide (a = b)
  | PList l1, PList l2 =>
      (fix go l1 l2 :=
         match l1, l2 with
         | [], [] => true
         | x :: l1', y :: l2' => struct_eq x y && go l1' l2'
         | _, _ => false
         end) l1 l2
  | PDict d1, PDict d2 =>
      (length d1 =? length d2)%nat &&
      forallb (fun kv => match assoc kv.1 d2 with
                         | Some y => struct_eq kv.2 y
                         | None => false
                         end) d1
  | _, _ => false
  end.

Section KeyDerivation.
(** [hashlib.md5(data_str.encode()).hexdigest()]. *)
Variable md5_hexdigest : text -> text.

(** [CacheManager._generate_key]. *)
Definition generate_key (prefix : text) (data : pyval) : text :=
  let data_str := match data with PStr s => s | _ => dumps data end in
  prefix ++ u ":" ++ md5_hexdigest data_str.
End KeyDerivation.

(** Two orderings of the same payload. *)
Definition payload_ab : pyval := PDict [(u "ticker", PStr (u "NVDA")); (u "period", PStr (u "1mo"))].
Definition payload_ba : pyval := PDict [(u "period", PStr (u "1mo")); (u "ticker", PStr (u "NVDA"))].

(* ------------------------------------------------------------------ *)
(** ** The cache store: [CacheManager] *)

(** [settings.CACHE_TTL] (default of the [CACHE_TTL] environment variable). *)
Definition CACHE_TTL : Z := 3600.

(** [datetime.max], in microseconds since [datetime.min]. *)
Definition DT_MAX : Z := 3652059 * 86400 * 1000000 - 1.

(** A Python exception, by its message. *)
Inductive outcome (A : Type) := Ok (a : A) | Raise (msg : text).
Arguments Ok {A} a.
Arguments Raise {A} msg.

(** [timedelta(seconds=s)], in microseconds; its day count is bounded. *)
Definition timedelta_seconds (s : Z) : outcome Z :=
  if (-999999999 <=? s / 86400) && (s / 86400 <=? 999999999)
  then Ok (s * 1000000) else Raise (u "OverflowError").

(** [datetime + timedelta]: the result must stay in the datetime range. *)
Definition dt_add (t d : Z) : outcome Z :=
  if (0 <=? t + d) && (t + d <=? DT_MAX) then Ok (t + d)
  else Raise (u "OverflowError: date value out of range").

(** [ttl or settings.CACHE_TTL]: [None] and [0] are falsy. *)
Definition ttl_or_default (ttl : option Z) : Z :=
  match ttl with
  | None => CACHE_TTL
  | Some t => if t =? 0 then CACHE_TTL else t
  end.

(** An entry of [_in_memory_cache]: [{"value": v, "expires": e}]. *)
Record entry := { e_value : pyval; e_expires : Z }.

(** The Redis server behind a client: reachable or not, and its keys with
    their values (as unpickled) and expiry instants. *)
Record redis_server := { r_up : bool; r_data : gmap text (pyval * Z) }.

(** [GET key]: an expired key reads as nil. *)
Definition redis_get (srv : redis_server) (key : text) (now : Z) : outcome (option pyval) :=
  if r_up srv then
    match r_data srv !! key with
    | Some (v, exp) => if now <? exp then Ok (Some v) else Ok None
    | None => Ok None
    end
  else Raise (u "ConnectionError").

(** [SETEX key ttl value]: a non-positive ttl is refused by the server. *)
Definition redis_setex (srv : redis_server) (key : text) (ttl : Z) (v : pyval)
    (now : Z) : outcome redis_server :=
  if r_up srv then
    if 0 <? ttl then
      Ok {| r_up := true; r_data := <[key := (v, now + ttl * 1000000)]> (r_data srv) |}
    else Raise (u "ResponseError: invalid expire time")
  else Raise (u "ConnectionError").

Record cache_manager := {
  redis_client : option redis_server;
  in_memory_cache : gmap text entry }.

(** [CacheManager.__init__] with [_setup_redis]: [connect] is the client
    built by [redis.Redis.from_url] ([None] when it raises); the [ping]
    raises when the server is unreachable, and the client is then [None]. *)
Definition init_cache (connect : option redis_server) : cache_manager :=
  {| redis_client :=
       match connect with
       | Some srv => if r_up srv then Some srv else None
       | None => None
       end;
     in_memory_cache := ∅ |}.

(** The body of the [try] of [CacheManager.get]. *)
Definition get_raw (cm : cache_manager) (key : text) (now : Z)
    : outcome (option pyval * cache_manager) :=
  match redis_client cm with
  | Some srv =>
      match redis_get srv key now with
      | Ok cached => Ok (cached, cm)
      | Raise e => Raise e
      end
  | None =>
      match in_memory_cache cm !! key with
      | Some item =>
          if now <? e_expires item then Ok (Some (e_value item), cm)
          else Ok (None, {| redis_client := redis_client cm;
                            in_memory_cache := delete key (in_memory_cache cm) |})
      | None => Ok (None, cm)
      end
  end.

(** [CacheManager.get]: an exception is logged and reads as [None]. *)
Definition cache_get (cm : cache_manager) (key : text) (now : Z)
    : option pyval * cache_manager :=
  match get_raw cm key now with
  | Ok r => r
  | Raise _ => (None, cm)
  end.

(** The body of the [try] of [CacheManager.set]. *)
Definition set_raw (cm : cache_manager) (key : text) (v : pyval) (ttl : option Z)
    (now : Z) : outcome cache_manager :=
  match redis_client cm with
  | Some srv =>
      match redis_setex srv key (ttl_or_default ttl) v now with
      | Ok srv' => Ok {| redis_client := Some srv'; in_memory_cache := in_memory_cache cm |}
      | Raise e => Raise e
      end
  | None =>
      match timedelta_seconds (ttl_or_default ttl) with
      | Ok d =>
          match dt_add now d with
          | Ok expires =>
              Ok {| redis_client := None;
                    in_memory_cache := <[key := {| e_value := v; e_expires := expires |}]>
                                         (in_memory_cache cm) |}
          | Raise e => Raise e
          end
      | Raise e => Raise e
      end
  end.

(** [CacheManager.set]: an exception is logged and the call does nothing. *)
Definition cache_set (cm : cache_manager) (key : text) (v : pyval) (ttl : option Z)
    (now : Z) : cache_manager :=
  match set_raw cm key v ttl now with
  | Ok cm' => cm'
  | Raise _ => cm
  end.

(** A sequence of store operations issued by callers. *)
Inductive cache_op :=
  | OpGet (key : text) (now : Z)
  | OpSet (key : text) (v : pyval) (ttl : option Z) (now : Z).

Fixpoint run_ops (cm : cache_manager) (ops : list cache_op) : cache_manager :=
  match ops with
  | [] => cm
  | OpGet k now :: ops' => run_ops (cache_get cm k now).2 ops'
  | OpSet k v ttl now :: ops' => run_ops (cache_set cm k v ttl now) ops'
  end.

(** A local store holding one entry, expiring at instant 5. *)
Definition cm_one_entry : cache_manager :=
  {| redis_client := None;
     in_memory_cache := {[u "k" := {| e_value := PInt 7; e_expires := 5 |}]} |}.

(* ------------------------------------------------------------------ *)
(** ** Requests: collaborators and the request monad *)

(** The calls a request makes to external collaborators, in order. *)
Inductive event :=
  | EvYfinance (tool : text) (ticker : text)  (** [yf.Ticker(ticker)] read by a [FinancialTools] method *)
  | EvSearch (query : text)                   (** [self.ddgs.text(query, ...)] *)
  | EvLLM (prompt : text)                     (** [self.synthesis_llm.invoke(prompt)] *)
  | EvFinancialAgent (query : text)           (** [self.financial_agent.query(query)] *)
  | EvWebData (query : text).                 (** [self._fetch_web_data(query)] *)

(** The process state a request sees: the global [cache_manager] and the
    calls made so far. *)
Record world := { w_cache : cache_manager; w_trace : list event }.

(** A request step reads the clock, updates the world, and returns or
    raises; a raised exception keeps the updates made before it. *)
Definition M (A : Type) : Type := Z -> world -> outcome A * world.

#[global] Instance M_ret : MRet M := fun A a _ w => (Ok a, w).
#[global] Instance M_bind : MBind M := fun A B f m now w =>
  match m now w with
  | (Ok a, w') => f a now w'
  | (Raise e, w') => (Raise e, w')
  end.

#[global] Instance outcome_ret : MRet outcome := fun A a => Ok a.
#[global] Instance outcome_bind : MBind outcome := fun A B f m =>
  match m with Ok a => f a | Raise e => Raise e end.

Definition lift {A} (o : outcome A) : M A := fun _ w => (o, w).
Definition get_now : M Z := fun now w => (Ok now, w).
Definition emit (ev : event) : M unit :=
  fun _ w => (Ok tt, {| w_cache := w_cache w; w_trace := w_trace w ++ [ev] |}).

(** [try: m except Exception as e: h(e)] *)
Definition try_except {A} (m : M A) (h : text -> M A) : M A := fun now w =>
  match m now w with
  | (Ok a, w') => (Ok a, w')
  | (Raise e, w') => h e now w'
  end.

(** [cache_manager.get(key)] and [cache_manager.set(key, v, ttl=ttl)]. *)
Definition cget (key : text) : M (option pyval) := fun now w =>
  let '(r, cm') := cache_get (w_cache w) key now in
  (Ok r, {| w_cache := cm'; w_trace := w_trace w |}).
Definition cset (key : text) (v : pyval) (ttl : Z) : M unit := fun now w =>
  (Ok tt, {| w_cache := cache_set (w_cache w) key v (Some ttl) now; w_trace := w_trace w |}).

(** Python truthiness. *)
Definition truthy (v : pyval) : bool :=
  match v with
  | PNone => false
  | PBool b => b
  | PInt z => negb (z =? 0)
  | PStr s => negb (bool_decide (s = []))
  | PList l => negb (bool_decide (l = []))
  | PDict d => negb (bool_decide (d = []))
  end.

(** [if cached:] on the result of [cache_manager.get]. *)
Definition truthy_opt (c : option pyval) : bool :=
  match c with Some v => truthy v | None => false end.

(** [d.get(k, default)] (only ever applied to dicts). *)
Definition py_get (d : pyval) (k : text) (default : pyval) : pyval :=
  match d with
  | PDict l => match assoc k l with Some v => v | None => default end
  | _ => default
  end.

(** [k in v]: key membership for a dict, element membership for a list. *)
Definition py_in (k : text) (v : pyval) : bool :=
  match v with
  | PDict l => existsb (fun kv => bool_decide (kv.1 = k)) l
  | PList l => existsb (fun x => match x with PStr s => bool_decide (s = k) | _ => false end) l
  | PStr s => contains k s
  | _ => false
  end.

(** The external collaborators of a request.  The market-data and search
    providers and the LLM are functions of the instant of the call; each
    returns the fields the code reads, or the exception it raises. *)
Record env := {
  md5_hexdigest : text -> text;
  (** [Ticker(t).info] / [.history(period="1mo")]: the values of the
      fields of the [data] dict of [get_stock_data] *)
  yf_stock : Z -> text -> outcome (text -> pyval);
  (** [Ticker(t).info], read by [get_analyst_recommendations] *)
  yf_analyst : Z -> text -> outcome (text -> pyval);
  (** [Ticker(t).info], read by [get_fundamentals] *)
  yf_fundamentals : Z -> text -> outcome (text -> pyval);
  (** [Ticker(t).news]: the items, with their fields *)
  yf_news : Z -> text -> outcome (list (text -> pyval));
  (** [list(DDGS().text(query, ...))] with each result's derived fields *)
  ddg_text : Z -> text -> outcome (list (text -> pyval));
  (** [synthesis_llm.invoke(prompt).content] *)
  llm_invoke : Z -> text -> outcome text;
  (** [format(v, spec)] for the format expressions the formatting code
      applies to provider values ([","], [",.0f"], ["*100:.1f"], ...) *)
  fmt_spec : text -> pyval -> outcome text }.

(** [str(v)]: strings as they are, other values by a rendering of their
    [repr]. *)
Fixpoint py_str (v : pyval) : text :=
  match v with
  | PNone => u "None"
  | PBool true => u "True"
  | PBool false => u "False"
  | PInt z => int_repr z
  | PStr s => s
  | PList l => u "[" ++ join (u ", ") (map py_str l) ++ u "]"
  | PDict d => u "{" ++ join (u ", ") (map (fun kv => kv.1 ++ u ": " ++ py_str kv.2) d) ++ u "}"
  end.

Definition stock_keys : list text :=
  [u "current_price"; u "open"; u "high"; u "low"; u "close"; u "volume"; u "currency";
   u "market_cap"; u "pe_ratio"; u "dividend_yield"; u "52_week_high"; u "52_week_low";
   u "timestamp"].
Definition analyst_keys : list text :=
  [u "recommendation"; u "mean_recommendation"; u "num_analysts"; u "target_mean";
   u "target_high"; u "target_low"; u "timestamp"].
Definition fundamentals_keys : list text :=
  [u "market_cap"; u "pe_ratio"; u "forward_pe"; u "peg_ratio"; u "price_to_book";
   u "debt_to_equity"; u "return_on_equity"; u "profit_margins"; u "operating_margins";
   u "revenue_growth"; u "earnings_growth"; u "timestamp"].
Definition news_keys : list text :=
  [u "title"; u "publisher"; u "link"; u "published"; u "related_tickers"].
Definition web_keys : list text :=
  [u "title"; u "snippet"; u "link"; u "source"; u "timestamp"].

(** [{"ticker": ticker, k1: f(k1), ...}] *)
Definition ticker_dict (ticker : text) (keys : list text) (f : text -> pyval) : pyval :=
  PDict ((u "ticker", PStr ticker) :: map (fun k => (k, f k)) keys).

Definition fields_dict (keys : list text) (f : text -> pyval) : pyval :=
  PDict (map (fun k => (k, f k)) keys).

(** [{"error": str(e), "ticker": ticker}] *)
Definition error_marker (e ticker : text) : pyval :=
  PDict [(u "error", PStr e); (u "ticker", PStr ticker)].

(* ------------------------------------------------------------------ *)
(** ** [FinancialTools] and [WebSearchTools.search_web] *)

Section Tools.
Context (E : env).

(** The shape shared by the cached fetchers: look the key up, return a
    truthy cached value, otherwise fetch, store the fresh value for [ttl]
    seconds and return it; a failure of the fetch returns its error value
    and stores nothing. *)
Definition cached_call (ns : text) (payload : text) (ttl : Z)
    (fetch : M pyval) (on_error : text -> pyval) : M pyval :=
  let cache_key := generate_key (md5_hexdigest E) ns (PStr payload) in
  cached ← cget cache_key;
  if truthy_opt cached then mret (default PNone cached) else
  try_except
    (data ← fetch;
     cset cache_key data ttl;;
     mret data)
    (fun e => mret (on_error e)).

(** [yf.Ticker(ticker).<attribute>] as read at the current instant. *)
Definition yf_read {A} (tool ticker : text) (provider : env -> Z -> text -> outcome A) : M A :=
  now ← get_now;
  emit (EvYfinance tool ticker);;
  lift (provider E now ticker).

Definition get_stock_data (ticker : text) : M pyval :=
  cached_call (u "stock_data") ticker 300
    (info ← yf_read (u "stock_data") ticker yf_stock;
     mret (ticker_dict ticker stock_keys info))
    (fun e => error_marker e ticker).

Definition get_analyst_recommendations (ticker : text) : M pyval :=
  cached_call (u "analyst_recs") ticker 3600
    (info ← yf_read (u "analyst_recs") ticker yf_analyst;
     mret (ticker_dict ticker analyst_keys info))
    (fun e => error_marker e ticker).

Definition get_fundamentals (ticker : text) : M pyval :=
  cached_call (u "fundamentals") ticker 3600
    (info ← yf_read (u "fundamentals") ticker yf_fundamentals;
     mret (ticker_dict ticker fundamentals_keys info))
    (fun e => error_marker e ticker).

(** [get_company_news(ticker, limit=5)]: the key payload is
    [f"{ticker}_{limit}"]. *)
Definition get_company_news (ticker : text) : M pyval :=
  cached_call (u "company_news") (ticker ++ u "_" ++ int_repr 5) 300
    (items ← yf_read (u "company_news") ticker yf_news;
     mret (PList (map (fields_dict news_keys) (take 5 items))))
    (fun e => PList [PDict [(u "error", PStr e)]]).

Definition search_web (query : text) : M pyval :=
  cached_call (u "web_search") query 300
    (emit (EvSearch query);;
     now ← get_now;
     results ← lift (ddg_text E now query);
     mret (PList (map (fields_dict web_keys) results)))
    (fun e => PList [PDict [(u "error", PStr e); (u "query", PStr query)]]).

End Tools.

(** The four market-data tools, for statements about all of them. *)
Inductive tool := StockData | AnalystRecs | Fundamentals | CompanyNews.

Definition run_tool (E : env) (t : tool) : text -> M pyval :=
  match t with
  | StockData => get_stock_data E
  | AnalystRecs => get_analyst_recommendations E
  | Fundamentals => get_fundamentals E
  | CompanyNews => get_company_news E
  end.

(** Per tool: the cache namespace, the key payload, the ttl, the error
    value, and what the [try] body computes from the provider's answer at
    instant [now] (as read off the definitions above). *)
Definition tool_ns (t : tool) : text :=
  match t with
  | StockData => u "stock_data"
  | AnalystRecs => u "analyst_recs"
  | Fundamentals => u "fundamentals"
  | CompanyNews => u "company_news"
  end.

Definition tool_payload (t : tool) (ticker : text) : text :=
  match t with
  | CompanyNews => ticker ++ u "_" ++ int_repr 5
  | _ => ticker
  end.

Definition tool_ttl (t : tool) : Z :=
  match t with
  | StockData | CompanyNews => 300
  | _ => 3600
  end.

Definition tool_key (E : env) (t : tool) (ticker : text) : text :=
  generate_key (md5_hexdigest E) (tool_ns t) (PStr (tool_payload t ticker)).

Definition tool_on_error (t : tool) (ticker : text) (e : text) : pyval :=
  match t with
  | CompanyNews => PList [PDict [(u "error", PStr e)]]
  | _ => error_marker e ticker
  end.

Definition fetched (E : env) (t : tool) (now : Z) (ticker : text) : outcome pyval :=
  match t with
  | StockData => info ← yf_stock E now ticker; mret (ticker_dict ticker stock_keys info)
  | AnalystRecs => info ← yf_analyst E now ticker; mret (ticker_dict ticker analyst_keys info)
  | Fundamentals => info ← yf_fundamentals E now ticker; mret (ticker_dict ticker fundamentals_keys info)
  | CompanyNews => items ← yf_news E now ticker;
                   mret (PList (map (fields_dict news_keys) (take 5 items)))
  end.

(* ------------------------------------------------------------------ *)
(** ** [SimpleFinancialAgent] *)

(** [str.isspace] code points, removed at both ends by [str.strip]. *)
Definition is_space (c : Z) : bool :=
  ((9 <=? c) && (c <=? 13)) || ((28 <=? c) && (c <=? 32)) || (c =? 133) || (c =? 160)
  || (c =? 5760) || ((8192 <=? c) && (c <=? 8202)) || (c =? 8232) || (c =? 8233)
  || (c =? 8239) || (c =? 8287) || (c =? 12288).

Fixpoint lstrip (s : text) : text :=
  match s with
  | c :: s' => if is_space c then lstrip s' else s
  | [] => []
  end.

Definition strip (s : text) : text := rev (lstrip (rev (lstrip s))).

(** Iteration over a value the code only ever builds as a list. *)
Definition py_items (v : pyval) : list pyval :=
  match v with PList l => l | _ => [] end.

Definition nonempty (s : text) : bool := negb (bool_decide (s = [])).

Section Agent.
Context (E : env).

(** [_fetch_all_data]: each tool call under its own [try]. *)
Definition fetch_all_data (ticker : text) : M pyval :=
  stock ← try_except (get_stock_data E ticker) (fun e => mret (PDict [(u "error", PStr e)]));
  analysts ← try_except (get_analyst_recommendations E ticker)
                        (fun e => mret (PDict [(u "error", PStr e)]));
  funds ← try_except (get_fundamentals E ticker) (fun e => mret (PDict [(u "error", PStr e)]));
  news ← try_except (get_company_news E ticker) (fun _ => mret (PList []));
  mret (PDict [(u "stock", stock); (u "analysts", analysts);
               (u "fundamentals", funds); (u "news", news)]).

(** The news items kept by [_format_response]: a truthy title whose
    [.strip()] is non-empty and that is not ["****"]. *)
Fixpoint valid_news (items : list pyval) : outcome (list pyval) :=
  match items with
  | [] => Ok []
  | item :: rest =>
      let title := py_get item (u "title") PNone in
      let keep : outcome bool :=
        if truthy title then
          match title with
          | PStr s => Ok (nonempty (strip s) && negb (bool_decide (s = u "****")))
          | _ => Raise (u "AttributeError")
          end
        else Ok false in
      match keep, valid_news rest with
      | Raise e, _ => Raise e
      | Ok _, Raise e => Raise e
      | Ok keep, Ok rest' =>
          Ok (if keep then item :: rest' else rest')
      end
  end.

Definition stock_part (ticker : text) (stock : pyval) : outcome (list text) :=
  let g k d := py_get stock k d in
  if negb (py_in (u "error") stock) then
    vol ← fmt_spec E (u ",") (g (u "volume") (PStr (u "N/A")));
    mcap ← (if truthy (g (u "market_cap") PNone) then
              m ← fmt_spec E (u ",.0f") (g (u "market_cap") (PInt 0));
              mret [u "- **Market Cap**: $" ++ m]
            else mret []);
    mret ([u "## 📈 Stock Data for " ++ ticker;
           u "- **Current Price**: $" ++ py_str (g (u "current_price") (PStr (u "N/A")))
             ++ u " " ++ py_str (g (u "currency") (PStr (u "USD")));
           u "- **Day Range**: $" ++ py_str (g (u "low") (PStr (u "N/A")))
             ++ u " - $" ++ py_str (g (u "high") (PStr (u "N/A")));
           u "- **Volume**: " ++ vol] ++ mcap ++
          [u "- **P/E Ratio**: " ++ py_str (g (u "pe_ratio") (PStr (u "N/A")));
           u "- **52-Week Range**: $" ++ py_str (g (u "52_week_low") (PStr (u "N/A")))
             ++ u " - $" ++ py_str (g (u "52_week_high") (PStr (u "N/A")));
           u "- **Data Timestamp**: " ++ py_str (g (u "timestamp") (PStr (u "N/A")))])
  else mret [u "⚠️ Could not fetch stock data: " ++ py_str (g (u "error") PNone)].

Definition analysts_part (analysts : pyval) : list text :=
  let g k d := py_get analysts k d in
  if negb (py_in (u "error") analysts) then
    [u "## 📊 Analyst Recommendations";
     u "- **Recommendation**: " ++ py_str (g (u "recommendation") (PStr (u "N/A")));
     u "- **Number of Analysts**: " ++ py_str (g (u "num_analysts") (PStr (u "N/A")))] ++
    (if truthy (g (u "target_mean") PNone)
     then [u "- **Target Price (Mean)**: $" ++ py_str (g (u "target_mean") (PStr (u "N/A")))]
     else []) ++
    (if truthy (g (u "target_high") PNone) && truthy (g (u "target_low") PNone)
     then [u "- **Target Range**: $" ++ py_str (g (u "target_low") PNone)
             ++ u " - $" ++ py_str (g (u "target_high") PNone)]
     else [])
  else [].

(** An optional percentage line: [f"{label}{funds.get(k, 0)*100:.1f}%"]. *)
Definition pct_line (funds : pyval) (k label : text) : outcome (list text) :=
  if truthy (py_get funds k PNone) then
    x ← fmt_spec E (u "*100:.1f") (py_get funds k (PInt 0));
    mret [label ++ x ++ u "%"]
  else mret [].

Definition funds_part (funds : pyval) : outcome (list text) :=
  if negb (py_in (u "error") funds) then
    pm ← pct_line funds (u "profit_margins") (u "- **Profit Margin**: ");
    rg ← pct_line funds (u "revenue_growth") (u "- **Revenue Growth**: ");
    roe ← pct_line funds (u "return_on_equity") (u "- **Return on Equity**: ");
    mret ([u "## 💰 Fundamentals"] ++ pm ++ rg ++ roe ++
          [u "- **Debt to Equity**: " ++ py_str (py_get funds (u "debt_to_equity") (PStr (u "N/A")))])
  else mret [].

Fixpoint news_lines (i : Z) (items : list pyval) : list text :=
  match items with
  | [] => []
  | item :: rest =>
      [int_repr i ++ u ". **" ++ py_str (py_get item (u "title") PNone) ++ u "**"] ++
      (if truthy (py_get item (u "publisher") PNone)
       then [u "   Publisher: " ++ py_str (py_get item (u "publisher") PNone)] else []) ++
      news_lines (i + 1) rest
  end.

Definition news_part (news : pyval) : outcome (list text) :=
  valid ← valid_news (py_items news);
  mret (if bool_decide (valid = []) then []
        else u "## 📰 Recent News (yfinance)" :: news_lines 1 (take 3 valid)).

(** [_format_response]; the format specs may raise. *)
Definition format_response (ticker : text) (data : pyval) : outcome text :=
  p1 ← stock_part ticker (py_get data (u "stock") (PDict []));
  let p2 := analysts_part (py_get data (u "analysts") (PDict [])) in
  p3 ← funds_part (py_get data (u "fundamentals") (PDict []));
  p4 ← news_part (py_get data (u "news") (PList []));
  mret (join nl (p1 ++ [[]] ++ p2 ++ [[]] ++ p3 ++ [[]] ++ p4)).

Fixpoint result_lines (i : Z) (results : list pyval) : list text :=
  match results with
  | [] => []
  | r :: rest =>
      [int_repr i ++ u ". **" ++ py_str (py_get r (u "title") (PStr (u "No title"))) ++ u "**";
       u "   " ++ py_str (py_get r (u "snippet") (PStr []));
       u "   Source: " ++ py_str (py_get r (u "source") (PStr (u "Unknown"))) ++ nl] ++
      result_lines (i + 1) rest
  end.

(** [not results or (len(results) == 1 and "error" in results[0])] *)
Definition no_results (results : pyval) : bool :=
  negb (truthy results) ||
  match py_items results with
  | [r] => py_in (u "error") r
  | _ => false
  end.

Definition web_search_response (query : text) : M text :=
  results ← search_web E query;
  if no_results results then mret (u "Could not find relevant information for your query.")
  else mret (join nl ((u "## 🔍 Web Search Results" ++ nl) ::
                      result_lines 1 (take 5 (py_items results)))).

(** [SimpleFinancialAgent.query] *)
Definition agent_query (query : text) : M text :=
  match extract_ticker query with
  | None => web_search_response query
  | Some ticker =>
      real_data ← fetch_all_data ticker;
      lift (format_response ticker real_data)
  end.

End Agent.

(* ------------------------------------------------------------------ *)
(** ** [MultiAgentOrchestrator] *)

Definition quote : text := [34].

(** [any(w in query.lower() for w in words)] *)
Definition mentions_any (words : list text) (query : text) : bool :=
  existsb (fun w => contains w (lower query)) words.

Definition synthesis_french_words : list text :=
  [u "analyse"; u "action"; u "bourse"; u "cours"; u "résultats"; u "marché";
   u "donnez"; u "donne"].
Definition reformat_french_words : list text :=
  [u "analyse"; u "action"; u "bourse"; u "cours"; u "donne"].

Definition lang_of (words : list text) (query : text) : text :=
  if mentions_any words query then u "French" else u "English".

(** The prompt of [_strict_synthesis], line by line. *)
Definition synthesis_prompt (lang financial_data web_data : text) : text :=
  join nl
    [u "[INST] You are a financial data formatter. Your ONLY job is to reorganize the data below.";
     [];
     u "## ABSOLUTE RULES - VIOLATION = FAILURE";
     [];
     u "1. **COPY-PASTE ONLY**: Every number in your response MUST appear exactly in the SOURCE DATA below";
     u "2. **NO INVENTION**: Do NOT create any numbers, percentages, prices, or dates";
     u "3. **NO EXTERNAL KNOWLEDGE**: Ignore everything you know about stocks. Use ONLY the data below.";
     u "4. **CITE SOURCES**: Every data point must mention its source (yfinance or DuckDuckGo)";
     [];
     u "## FORBIDDEN (examples of what NOT to do):";
     u "❌ " ++ quote ++ u "The stock is expected to reach $500" ++ quote ++ u " (if 500 is not in the data)";
     u "❌ " ++ quote ++ u "Revenue grew 45% in Q3" ++ quote ++ u " (if 45% and Q3 are not in the data)";
     u "❌ " ++ quote ++ u "According to Bloomberg..." ++ quote ++ u " (if Bloomberg is not mentioned in sources)";
     u "❌ Adding any analysis, predictions, or opinions";
     [];
     u "## REQUIRED OUTPUT FORMAT:";
     [];
     u "### Résumé (if " ++ lang ++ u "=French) / Summary (if " ++ lang ++ u "=English)";
     u "- List 3-5 key facts using ONLY numbers from the data";
     [];
     u "### Données Financières / Financial Data";
     u "- Copy the key metrics from yfinance data below";
     [];
     u "### Actualités / News";
     u "- Summarize headlines from web search below (cite source)";
     [];
     u "### Sources";
     u "- yfinance API (real-time data)";
     u "- DuckDuckGo Search";
     [];
     u "---";
     [];
     u "## SOURCE DATA (use ONLY this):";
     [];
     u "### From yfinance API:";
     financial_data;
     [];
     u "### From DuckDuckGo Search:";
     web_data;
     [];
     u "---";
     [];
     u "Now write the formatted response in " ++ lang ++
       u ". Remember: COPY numbers, don't invent them. [/INST]"].

(** The prompt of [_reformat_data]. *)
Definition reformat_prompt (data_type lang data source : text) : text :=
  join nl
    [u "[INST] Reformat this " ++ data_type ++ u " data in " ++ lang ++ u ". ";
     [];
     u "RULES:";
     u "- COPY all numbers exactly as they appear";
     u "- Do NOT add any new data";
     u "- Do NOT make predictions";
     [];
     u "DATA:";
     data;
     [];
     u "Write a clean, formatted version in " ++ lang ++ u ". End with: " ++ quote ++
       u "Source: " ++ source ++ quote ++ u " [/INST]"].

(** [_format_fallback] *)
Definition format_fallback (financial_data web_data : text) : text :=
  join nl
    ((if nonempty financial_data
      then [u "## 📊 Données Financières (yfinance API)"; financial_data] else []) ++
     (if nonempty web_data
      then [nl ++ u "## 📰 Actualités (DuckDuckGo)"; web_data] else []) ++
     [nl ++ u "---";
      u "*Sources: yfinance API (données en temps réel), DuckDuckGo (actualités)*"]).

(** The [companies] table of [_simplify_query], in insertion order. *)
Definition simplify_companies : list (text * text) :=
  [(u "aapl", u "AAPL Apple stock news 2024"); (u "apple", u "AAPL Apple stock news 2024");
   (u "nvda", u "NVDA NVIDIA stock news 2024"); (u "nvidia", u "NVDA NVIDIA stock news 2024");
   (u "tsla", u "TSLA Tesla stock news 2024"); (u "tesla", u "TSLA Tesla stock news 2024");
   (u "msft", u "MSFT Microsoft stock news 2024"); (u "googl", u "GOOGL Google stock news 2024");
   (u "amzn", u "AMZN Amazon stock news 2024"); (u "meta", u "META stock news 2024");
   (u "amd", u "AMD stock news 2024"); (u "intel", u "INTC Intel stock news 2024")].

Definition simplify_query (query : text) : text :=
  match find_alias (lower query) simplify_companies with
  | Some term => term
  | None => query
  end.

Fixpoint web_lines (i : Z) (results : list pyval) : list text :=
  match results with
  | [] => []
  | r :: rest =>
      [int_repr i ++ u ". " ++ py_str (py_get r (u "title") (PStr (u "No title")));
       u "   " ++ py_str (py_get r (u "snippet") (PStr []));
       u "   Source: " ++ py_str (py_get r (u "source") (PStr (u "Unknown")))] ++
      web_lines (i + 1) rest
  end.

(** The cached value returned as the response ([return cached]); the
    orchestrator only ever stores strings under its keys. *)
Definition as_text (v : pyval) : text :=
  match v with PStr s => s | _ => py_str v end.

Section Orchestrator.
Context (E : env).

(** [self.synthesis_llm.invoke(prompt).content] *)
Definition invoke_llm (prompt : text) : M text :=
  emit (EvLLM prompt);;
  now ← get_now;
  lift (llm_invoke E now prompt).

Definition fetch_web_data (query : text) : M text :=
  try_except
    (let search_query := simplify_query query in
     results ← search_web E search_query;
     if no_results results then mret []
     else mret (join nl (web_lines 1 (take 5 (py_items results)))))
    (fun _ => mret []).

Definition strict_synthesis (query financial_data web_data : text) : M text :=
  let lang := lang_of synthesis_french_words query in
  try_except (invoke_llm (synthesis_prompt lang financial_data web_data))
             (fun _ => mret (format_fallback financial_data web_data)).

Definition reformat_data (query data data_type : text) : M text :=
  let lang := lang_of reformat_french_words query in
  let source := if bool_decide (data_type = u "financial") then u "yfinance API"
                else u "DuckDuckGo" in
  try_except (invoke_llm (reformat_prompt data_type lang data source))
             (fun _ => mret data).

(** STEP 1 of [query]: the financial block, then the web block. *)
Definition financial_step (query : text) : M text :=
  let analysis := analyze_query query in
  if needs_financial analysis then
    emit (EvFinancialAgent query);; agent_query E query
  else mret [].

Definition web_step (query : text) : M text :=
  let analysis := analyze_query query in
  if needs_news analysis || negb (needs_financial analysis) then
    emit (EvWebData query);; fetch_web_data query
  else mret [].

(** STEP 2 of [query]: synthesis or reformatting of the two blocks. *)
Definition combine_blocks (query financial_data web_data : text) : M text :=
  if nonempty financial_data && nonempty web_data then
    strict_synthesis query financial_data web_data
  else if nonempty financial_data then
    reformat_data query financial_data (u "financial")
  else if nonempty web_data then
    reformat_data query web_data (u "web")
  else mret (u "Could not find relevant information.").

(** The body of the [try] of [query]. *)
Definition orchestrate (query : text) (cache_key : text) : M text :=
  financial_data ← financial_step query;
  web_data ← web_step query;
  response ← combine_blocks query financial_data web_data;
  cset cache_key (PStr response) CACHE_TTL;;
  mret response.

(** [MultiAgentOrchestrator.query] *)
Definition orch_query (query : text) : M text :=
  let cache_key := generate_key (md5_hexdigest E) (u "orchestrator") (PStr query) in
  cached ← cget cache_key;
  if truthy_opt cached then mret (as_text (default PNone cached)) else
  try_except (orchestrate query cache_key)
             (fun e => mret (u "Error: " ++ e)).

End Orchestrator.

(* ------------------------------------------------------------------ *)
(** ** Example collaborators *)

(** Collaborators for concrete runs: the digest is the identity, and the
    three [info] readers share one answer. *)
Definition example_env (info : Z -> text -> outcome (text -> pyval))
    (news : Z -> text -> outcome (list (text -> pyval)))
    (search : Z -> text -> outcome (list (text -> pyval)))
    (llm : Z -> text -> outcome text)
    (fmt : text -> pyval -> outcome text) : env :=
  {| md5_hexdigest := fun s => s;
     yf_stock := info; yf_analyst := info; yf_fundamentals := info;
     yf_news := news; ddg_text := search; llm_invoke := llm; fmt_spec := fmt |}.

Definition down {A} : Z -> text -> outcome A := fun _ _ => Raise (u "ConnectionError").

Definition empty_world : world := {| w_cache := init_cache None; w_trace := [] |}.

(** [datetime(2024, 1, 1)], in microseconds since [datetime.min]: a clock
    reading [datetime.now()] can return, for concrete runs. *)
Definition now_2024 : Z := 738885 * 86400 * 1000000.


(* ------------------------------------------------------------------ *)
(** ** Observing a request *)

(** The calls [query] makes itself, as opposed to those made inside the
    steps it calls. *)
Definition step_event (ev : event) : bool :=
  match ev with
  | EvFinancialAgent _ | EvWebData _ => true
  | _ => false
  end.

Definition step_events (tr : list event) : list event := List.filter step_event tr.

(** Which backend the store uses, and whether a Redis server is up. *)
Definition client_kind (cm : cache_manager) : option bool := option_map r_up (redis_client cm).

(** A computation that keeps the kind of backend and makes no call of
    [query]'s own. *)
Definition quiet {A} (m : M A) : Prop :=
  forall now w,
    client_kind (w_cache (m now w).2) = client_kind (w_cache w) /\
    step_events (w_trace (m now w).2) = step_events (w_trace w).


(** Whether a step returned normally. *)
Definition is_ok {A} (o : outcome A) : bool := match o with Ok _ => true | Raise _ => false end.



(* ------------------------------------------------------------------ *)
(** ** [SimpleFinancialAgent.compare_stocks] *)

(** [d[k] = v] on a dict kept in insertion order. *)
Fixpoint dict_set {A} (k : text) (v : A) (d : list (text * A)) : list (text * A) :=
  match d with
  | [] => [(k, v)]
  | (k', v') :: d' => if bool_decide (k' = k) then (k, v) :: d' else (k', v') :: dict_set k v d'
  end.

(** [val == "N/A" or val is None] *)
Definition is_na (v : pyval) : bool :=
  match v with
  | PNone => true
  | PStr s => bool_decide (s = u "N/A")
  | _ => false
  end.

Definition na : text := u "N/A".

Section Comparison.
Context (E : env).

(** The [format_func] arguments of [get_val]. *)
Definition fmt_str (v : pyval) : outcome text := Ok (py_str v).
Definition fmt_dollar (v : pyval) : outcome text :=
  s ← fmt_spec E (u ".2f") v; mret (u "$" ++ s).
Definition fmt_grouped (v : pyval) : outcome text := fmt_spec E (u ",") v.
Definition fmt_1f (v : pyval) : outcome text := fmt_spec E (u ".1f") v.
Definition fmt_2f (v : pyval) : outcome text := fmt_spec E (u ".2f") v.
Definition fmt_pct (v : pyval) : outcome text :=
  s ← fmt_spec E (u "*100:.1f") v; mret (s ++ u "%").
(** [f"${x/1e12:.2f}T" if x > 1e12 else f"${x/1e9:.1f}B"] *)
Definition fmt_market_cap (v : pyval) : outcome text :=
  let trillions : outcome text := s ← fmt_spec E (u "/1e12:.2f") v; mret (u "$" ++ s ++ u "T") in
  let billions : outcome text := s ← fmt_spec E (u "/1e9:.1f") v; mret (u "$" ++ s ++ u "B") in
  match v with
  | PInt z => if 1000000000000 <? z then trillions else billions
  | PBool _ => billions
  | _ => Raise (u "TypeError")
  end.

(** [get_val]: every exception reads as ["N/A"]. *)
Definition get_val (all_data : list (text * pyval)) (ticker key subkey : text)
    (format_func : pyval -> outcome text) : text :=
  match assoc ticker all_data with
  | None => na
  | Some d =>
      let data := py_get d key (PDict []) in
      if py_in (u "error") data then u "Error" else
      let val := py_get data subkey (PStr na) in
      if is_na val then na else
      match format_func val with
      | Ok s => s
      | Raise _ => na
      end
  end.

Definition price_row (all_data : list (text * pyval)) (ticker : text) : text :=
  let g k f := get_val all_data ticker (u "stock") k f in
  let price := g (u "current_price") fmt_dollar in
  let currency := g (u "currency") fmt_str in
  let low := g (u "low") fmt_dollar in
  let high := g (u "high") fmt_dollar in
  let volume := g (u "volume") fmt_grouped in
  let day_change := if negb (bool_decide (low = na)) && negb (bool_decide (high = na))
                    then low ++ u " - " ++ high else na in
  u "| " ++ ticker ++ u " | " ++ price ++ u " " ++ currency ++ u " | " ++ day_change
    ++ u " | " ++ volume ++ u " |".

Definition valuation_row (all_data : list (text * pyval)) (ticker : text) : text :=
  let g k f := get_val all_data ticker (u "stock") k f in
  let market_cap := g (u "market_cap") fmt_market_cap in
  let pe := g (u "pe_ratio") fmt_1f in
  let low_52 := g (u "52_week_low") fmt_dollar in
  let high_52 := g (u "52_week_high") fmt_dollar in
  let range_52 := if negb (bool_decide (low_52 = na)) then low_52 ++ u " - " ++ high_52 else na in
  u "| " ++ ticker ++ u " | " ++ market_cap ++ u " | " ++ pe ++ u " | " ++ range_52 ++ u " |".

Definition fundamentals_row (all_data : list (text * pyval)) (ticker : text) : text :=
  let g k f := get_val all_data ticker (u "fundamentals") k f in
  u "| " ++ ticker ++ u " | " ++ g (u "profit_margins") fmt_pct ++ u " | "
    ++ g (u "revenue_growth") fmt_pct ++ u " | " ++ g (u "return_on_equity") fmt_pct
    ++ u " | " ++ g (u "debt_to_equity") fmt_2f ++ u " |".

Definition analysts_row (all_data : list (text * pyval)) (ticker : text) : text :=
  let g k f := get_val all_data ticker (u "analysts") k f in
  u "| " ++ ticker ++ u " | " ++ g (u "recommendation") fmt_str ++ u " | "
    ++ g (u "target_mean") fmt_dollar ++ u " | " ++ g (u "num_analysts") fmt_str ++ u " |".

(** [_format_comparison] *)
Definition format_comparison (all_data : list (text * pyval)) : text :=
  let tickers := map fst all_data in
  join nl
    ([u "# 📊 Stock Comparison" ++ nl;
      u "## 💰 Current Prices";
      u "| Ticker | Price | Day Change | Volume |";
      u "|--------|-------|------------|--------|"] ++
     map (price_row all_data) tickers ++
     [[];
      u "## 📈 Market Cap & Valuation";
      u "| Ticker | Market Cap | P/E Ratio | 52-Week Range |";
      u "|--------|------------|-----------|---------------|"] ++
     map (valuation_row all_data) tickers ++
     [[];
      u "## 💼 Fundamentals";
      u "| Ticker | Profit Margin | Revenue Growth | ROE | Debt/Equity |";
      u "|--------|---------------|----------------|-----|-------------|"] ++
     map (fundamentals_row all_data) tickers ++
     [[];
      u "## 🎯 Analyst Recommendations";
      u "| Ticker | Recommendation | Target Price | # Analysts |";
      u "|--------|----------------|--------------|------------|"] ++
     map (analysts_row all_data) tickers ++
     [nl ++ u "---";
      u "*Data source: yfinance API (real-time)*"]).

(** The loop of [compare_stocks] over the requested symbols. *)
Fixpoint fetch_each (tickers : list text) (all_data : list (text * pyval))
    : M (list (text * pyval)) :=
  match tickers with
  | [] => mret all_data
  | ticker :: rest =>
      let ticker_upper := upper ticker in
      M_bind _ _ (fun data : pyval => fetch_each rest (dict_set ticker_upper data all_data))
        (try_except (fetch_all_data E ticker_upper)
                    (fun e => mret (PDict [(u "error", PStr e)])))
  end.

Definition compare_stocks (tickers : list text) : M text :=
  if bool_decide (length tickers < 2)%nat then
    mret (u "Please provide at least 2 tickers to compare.")
  else if bool_decide (5 < length tickers)%nat then
    mret (u "Maximum 5 tickers allowed for comparison.")
  else
    all_data ← fetch_each tickers [];
    mret (format_comparison all_data).

End Comparison.


(** The section headings of a comparison report. *)
Definition comparison_headings : list text :=
  [u "## 💰 Current Prices"; u "## 📈 Market Cap & Valuation"; u "## 💼 Fundamentals";
   u "## 🎯 Analyst Recommendations"].

(* ------------------------------------------------------------------ *)
(** ** [CacheManager.clear] and [MultiAgentOrchestrator.clear_memory] *)

(** [clear(prefix)]: [prefix] is [None] or a string, falsy when empty.
    [redis_match pattern key] is the Redis server's glob match used by
    [SCAN ... MATCH pattern]; a complete SCAN iteration deletes every key
    it matches.  A Redis error (server down) is logged and the call does
    nothing. *)
Definition cache_clear (redis_match : text -> text -> bool) (cm : cache_manager)
    (prefix : option text) : cache_manager :=
  let p := match prefix with Some p => p | None => [] end in
  match redis_client cm with
  | Some srv =>
      if r_up srv then
        if nonempty p then
          {| redis_client :=
               Some {| r_up := true;
                       r_data := filter (fun kv : text * (pyval * Z) =>
                                           redis_match (p ++ u ":*") kv.1 = false)
                                        (r_data srv) |};
             in_memory_cache := in_memory_cache cm |}
        else
          {| redis_client := Some {| r_up := true; r_data := ∅ |};
             in_memory_cache := in_memory_cache cm |}
      else cm
  | None =>
      if nonempty p then
        {| redis_client := None;
           in_memory_cache := filter (fun kv : text * entry =>
                                        prefixb (p ++ u ":") kv.1 = false)
                                     (in_memory_cache cm) |}
      else {| redis_client := None; in_memory_cache := ∅ |}
  end.

(** [MultiAgentOrchestrator.clear_memory]: [cache_manager.clear()]. *)
Definition clear_memory (redis_match : text -> text -> bool) : M unit := fun _ w =>
  (Ok tt, {| w_cache := cache_clear redis_match (w_cache w) None; w_trace := w_trace w |}).

(** The store accepts [set(key, v, ttl=ttl)] at [now] (for a positive
    [ttl]): the local map when the expiry stays in the datetime range,
    Redis when it is up. *)
Definition accepts_for (cm : cache_manager) (now ttl : Z) : Prop :=
  match client_kind cm with
  | None => 0 <= now /\ now + ttl * 1000000 <= DT_MAX
  | Some up => up = true
  end.

(** The distinct elements of a list, in order of first occurrence. *)
Definition add_key (ks : list text) (k : text) : list text :=
  if bool_decide (k ∈ ks) then ks else ks ++ [k].
Definition ordered_keys (l : list text) : list text := fold_left add_key l [].

(* ------------------------------------------------------------------ *)
(** ** [MemoryManager] *)

(** [{"timestamp": ..., "user": ..., "assistant": ..., "metadata": ...}] *)
Record interaction := {
  i_timestamp : text; i_user : text; i_assistant : text; i_metadata : pyval }.

Record memory_manager := { memory : list interaction; max_history : Z }.

(** [MemoryManager(max_history)] *)
Definition new_memory (max_history : Z) : memory_manager :=
  {| memory := []; max_history := max_history |}.

(** Python's [lst[start:]]: a negative start counts from the end. *)
Definition py_slice_from {A} (start : Z) (l : list A) : list A :=
  let n := Z.of_nat (length l) in
  drop (Z.to_nat (if start <? 0 then Z.max 0 (n + start) else Z.min start n)) l.

(** [add_interaction]; [now_iso] is [datetime.now().isoformat()] and a
    missing [metadata] is [PNone]. *)
Definition add_interaction (mm : memory_manager) (now_iso user_input agent_response : text)
    (metadata : pyval) : memory_manager :=
  let interaction := {| i_timestamp := now_iso; i_user := user_input;
                        i_assistant := agent_response;
                        i_metadata := if truthy metadata then metadata else PDict [] |} in
  let mem := memory mm ++ [interaction] in
  {| memory := if Z.of_nat (length mem) >? max_history mm
               then py_slice_from (- max_history mm) mem else mem;
     max_history := max_history mm |}.

Definition history_lines (it : interaction) : list text :=
  [u "User: " ++ i_user it; u "Assistant: " ++ i_assistant it].

(** [get_conversation_history(limit)]: [limit or self.max_history]. *)
Definition get_conversation_history (mm : memory_manager) (limit : option Z) : list text :=
  let n := match limit with
           | Some l => if l =? 0 then max_history mm else l
           | None => max_history mm
           end in
  flat_map history_lines (py_slice_from (- n) (memory mm)).

(** [str.split()]: maximal runs of non-whitespace. *)
Fixpoint split_go (cur : text) (s : text) : list text :=
  match s with
  | [] => if bool_decide (cur = []) then [] else [rev cur]
  | c :: s' =>
      if is_space c then
        if bool_decide (cur = []) then split_go [] s' else rev cur :: split_go [] s'
      else split_go (c :: cur) s'
  end.
Definition split_ws (s : text) : list text := split_go [] s.

(** [sum(1 for word in query_words if word in combined_text) > 1], over
    the set [query_words]. *)
Definition is_relevant (query_words : list text) (it : interaction) : bool :=
  let combined_text := lower (i_user it ++ u " " ++ i_assistant it) in
  1 <? Z.of_nat (length (List.filter (fun w => contains w combined_text) query_words)).

(** [get_context] *)
Definition get_context (mm : memory_manager) (current_query : text) : text :=
  let query_words := remove_dups (split_ws (lower current_query)) in
  let relevant := List.filter (is_relevant query_words) (py_slice_from (-5) (memory mm)) in
  if bool_decide (relevant <> []) then
    join nl (u "Previous relevant conversations:" ::
             flat_map history_lines (py_slice_from (-3) relevant))
  else u "No relevant previous conversations.".

(** [clear] *)
Definition memory_clear (mm : memory_manager) : memory_manager :=
  {| memory := []; max_history := max_history mm |}.

(* ================================================================== *)
(** * Proofs *)

(* ------------------------------------------------------------------ *)
(** ** Text lemmas *)

Lemma prefixb_app (k b : text) : prefixb k (k ++ b) = true.
Proof. induction k as [|x k IH]; simpl; [done|]. by rewrite Z.eqb_refl, IH. Qed.

Lemma contains_app (k a b : text) : contains k (a ++ k ++ b) = true.
Proof.
  induction a as [|x a IH]; simpl.
  - destruct k; [by destruct b|]. simpl. rewrite Z.eqb_refl, prefixb_app. done.
  - rewrite IH. apply orb_true_r.
Qed.

Lemma lower_app (a b : text) : lower (a ++ b) = lower a ++ lower b.
Proof. apply map_app. Qed.

Lemma upper_app (a b : text) : upper (a ++ b) = upper a ++ upper b.
Proof. apply map_app. Qed.

(* ------------------------------------------------------------------ *)
(** ** Ticker resolution *)

Lemma upper_run_AZ (s : text) (n : nat) :
  Forall (fun c => is_AZ c = true) (take (upper_run s n) s).
Proof.
  revert s. induction n as [|n IH]; intros [|c s]; simpl; try constructor.
  destruct (is_AZ c) eqn:E; simpl; constructor; auto.
Qed.

Lemma try_len_take (s : text) (k : nat) (m : text) :
  try_len s k = Some m -> exists j, (j <= k)%nat /\ m = take j s.
Proof.
  induction k as [|k IH]; simpl; [discriminate|].
  destruct (_ && _); [intros [= <-]; exists (S k); split; [lia|done]|].
  intros H. destruct (IH H) as (j & ? & ->). exists j. split; [lia|done].
Qed.

Lemma try_at_AZ (prev : option Z) (s m : text) :
  try_at prev s = Some m ->
  Forall (fun c => is_AZ c = true) m /\ exists r, s = m ++ r.
Proof.
  unfold try_at. destruct (_ && _); [|discriminate].
  intros H. destruct (try_len_take _ _ _ H) as (j & Hj & ->). split.
  - replace (take j s) with (take j (take (upper_run s 5) s))
      by (rewrite take_take; f_equal; lia).
    apply Forall_take, upper_run_AZ.
  - exists (drop j s). symmetry. apply take_drop.
Qed.

Lemma re_search_from_sub (prev : option Z) (s m : text) :
  re_search_from prev s = Some m ->
  Forall (fun c => is_AZ c = true) m /\ exists a b, s = a ++ m ++ b.
Proof.
  revert prev. induction s as [|c s IH]; intros prev; simpl;
    destruct (try_at prev _) as [m'|] eqn:E.
  - intros [= <-]. destruct (try_at_AZ _ _ _ E) as [HF [r Hr]].
    split; [done|]. exists [], r. done.
  - discriminate.
  - intros [= <-]. destruct (try_at_AZ _ _ _ E) as [HF [r Hr]].
    split; [done|]. exists [], r. done.
  - intros H. destruct (IH _ H) as [HF (a & b & ->)].
    split; [done|]. exists (c :: a), b. done.
Qed.

Lemma re_finditer_from_sub (fuel : nat) (prev : option Z) (s m : text) :
  In m (re_finditer_from fuel prev s) ->
  Forall (fun c => is_AZ c = true) m /\ exists a b, s = a ++ m ++ b.
Proof.
  revert prev s. induction fuel as [|f IH]; intros prev s; simpl; [done|].
  destruct (try_at prev s) as [m'|] eqn:E.
  - destruct (try_at_AZ _ _ _ E) as [HF [r Hr]].
    intros [<- | Hin].
    + split; [done|]. exists [], r. done.
    + destruct (IH _ _ Hin) as [HF' (a & b & Hab)]. split; [done|].
      exists (m' ++ a), b. rewrite Hr at 1.
      assert (drop (length m') s = r) as Hd by (rewrite Hr, drop_app_length; done).
      rewrite <- Hd, Hab. by rewrite <- !app_assoc.
  - destruct s as [|c s]; [done|]. intros Hin.
    destruct (IH _ _ Hin) as [HF (a & b & ->)].
    split; [done|]. exists (c :: a), b. done.
Qed.

Lemma find_alias_None (ql : text) (tbl : list (text * text)) :
  find_alias ql tbl = None ->
  forall kw t, In (kw, t) tbl -> contains kw ql = false.
Proof.
  induction tbl as [|[kw' t'] tbl IH]; simpl; [done|].
  destruct (contains kw' ql) eqn:E; [discriminate|].
  intros H kw t [[= -> ->] | Hin]; eauto.
Qed.

Lemma find_alias_find (ql : text) (tbl : list (text * text)) :
  find_alias ql tbl =
  match List.find (fun p => contains (fst p) ql) tbl with
  | Some p => Some (snd p) | None => None end.
Proof.
  induction tbl as [|[kw t] tbl IH]; simpl; [done|].
  by destruct (contains kw ql).
Qed.

(** Every canonical symbol, lower-cased, is itself an alias. *)
Lemma values_are_aliases :
  Forall (fun v => existsb (fun p => bool_decide (fst p = lower v)) TICKER_PATTERNS = true)
    ticker_values.
Proof. vm_compute. repeat constructor. Qed.

(** Step 2 of the resolver is reached only when no alias occurs in the
    lower-cased text, and then no upper-case substring is a symbol. *)
Lemma no_symbol_substring (q a m b : text) :
  find_alias (lower q) TICKER_PATTERNS = None ->
  q = a ++ m ++ b -> in_values m = false.
Proof.
  intros Hnone ->. destruct (in_values m) eqn:Hv; [|done]. exfalso.
  unfold in_values in Hv. apply existsb_exists in Hv as [v [Hin Heq]].
  apply bool_decide_eq_true in Heq; subst v.
  pose proof values_are_aliases as HF. rewrite Forall_forall in HF.
  specialize (HF m (proj2 (list_elem_of_In _ _) Hin)). apply existsb_exists in HF as [[kw t] [Hp Heq]].
  apply bool_decide_eq_true in Heq; simpl in Heq; subst kw.
  pose proof (find_alias_None _ _ Hnone _ _ Hp) as Hc.
  rewrite !lower_app, contains_app in Hc. discriminate.
Qed.

(** C5: [_extract_ticker] is the resolver of the spec: step 1 returns the
    symbol of the first alias of [TICKER_PATTERNS] occurring in the
    lower-cased query; only when there is none, step 2 returns the first
    upper-case 2-5 letter token of the original query that is a canonical
    symbol, otherwise nothing.  (The code only inspects the first regex
    match, which is equivalent because step 2 can never succeed.)  On the
    spec's examples it yields NVDA and nothing. *)
Theorem extract_ticker_refines_spec :
  (forall q : text, extract_ticker q = resolve_spec q) /\
  extract_ticker (u "What is NVIDIA's price?") = Some (u "NVDA") /\
  extract_ticker (u "general market commentary") = None.
Proof.
  split; [|split; vm_compute; reflexivity].
  intros q. unfold extract_ticker, resolve_spec. rewrite find_alias_find.
  destruct (List.find _ TICKER_PATTERNS) as [p|] eqn:Hfind; [done|].
  assert (find_alias (lower q) TICKER_PATTERNS = None) as Hnone
    by (rewrite find_alias_find, Hfind; done).
  destruct (List.find in_values (re_finditer q)) as [m|] eqn:Hf.
  - exfalso. apply find_some in Hf as [Hin Hv].
    destruct (re_finditer_from_sub _ _ _ _ Hin) as [_ (a & b & Hq)].
    rewrite (no_symbol_substring q a m b Hnone Hq) in Hv. discriminate.
  - destruct (re_search q) as [m|] eqn:Hs; [|done].
    destruct (re_search_from_sub _ _ _ Hs) as [_ (a & b & Hq)].
    by rewrite (no_symbol_substring q a m b Hnone Hq).
Qed.

(* ------------------------------------------------------------------ *)
(** ** Query analysis *)

Lemma prefixb_spec (k s : text) : prefixb k s = true <-> exists b, s = k ++ b.
Proof.
  revert s. induction k as [|x k IH]; intros [|y s]; simpl.
  - split; [eauto|done].
  - split; [eauto|done].
  - split; [done|intros [b Hb]; discriminate].
  - rewrite andb_true_iff, Z.eqb_eq, IH. split.
    + intros [-> [b ->]]. eauto.
    + intros [b [= -> ->]]. eauto.
Qed.

Lemma contains_spec (k s : text) : contains k s = true <-> occurs_in k s.
Proof.
  unfold occurs_in. induction s as [|y s IH]; simpl.
  - rewrite orb_false_r, prefixb_spec. split.
    + intros [b ->]. exists [], b. done.
    + intros [a [b Hab]]. destruct a; [eauto|discriminate].
  - rewrite orb_true_iff, prefixb_spec, IH. split.
    + intros [[b Hb] | (a & b & ->)].
      * exists [], b. done.
      * exists (y :: a), b. done.
    + intros [[|y' a] [b Hab]]; simpl in Hab.
      * left. eauto.
      * right. injection Hab as -> ->. eauto.
Qed.

Lemma any_in_spec (kws : list text) (ql : text) :
  any_in kws ql = true <-> exists k, In k kws /\ occurs_in k ql.
Proof.
  unfold any_in. rewrite existsb_exists. split.
  - intros [k [Hk Hc]]. exists k. by rewrite <- contains_spec.
  - intros [k [Hk Hc]]. exists k. by rewrite contains_spec.
Qed.

(** C6: the analysis is a function of the query alone: [needs_financial]
    holds iff a financial or a company keyword occurs in the lower-cased
    query, and [needs_news] iff a news keyword does.  On the spec's two
    examples it yields (true, false) and (true, true). *)
Theorem analyze_query_keyword_match :
  (forall q : text,
     (needs_financial (analyze_query q) = true <->
        exists k, (In k financial_keywords \/ In k company_keywords) /\
                  occurs_in k (lower q)) /\
     (needs_news (analyze_query q) = true <->
        exists k, In k news_keywords /\ occurs_in k (lower q))) /\
  analyze_query (u "What is the stock price of NVIDIA?")
    = {| needs_financial := true; needs_news := false |} /\
  analyze_query (u "Latest Tesla news")
    = {| needs_financial := true; needs_news := true |}.
Proof.
  split; [|split; vm_compute; reflexivity].
  intros q. unfold analyze_query. cbn [needs_financial needs_news]. split.
  - rewrite orb_true_iff, !any_in_spec. split.
    + intros [[k [Hk Ho]] | [k [Hk Ho]]]; eauto.
    + intros [k [[Hk | Hk] Ho]]; eauto.
  - apply any_in_spec.
Qed.

(* ------------------------------------------------------------------ *)
(** ** Key derivation *)

Lemma text_leb_refl (a : text) : text_leb a a = true.
Proof. induction a as [|x a IH]; simpl; [done|]. by rewrite Z.eqb_refl, IH, orb_true_r. Qed.

Lemma text_leb_trans (a b c : text) :
  text_leb a b = true -> text_leb b c = true -> text_leb a c = true.
Proof.
  revert b c. induction a as [|x a IH]; intros [|y b] [|z c]; simpl; try done.
  rewrite !orb_true_iff, !andb_true_iff, !Z.ltb_lt, !Z.eqb_eq.
  intros [?|[-> ?]] [?|[-> ?]]; eauto with lia.
Qed.

Lemma text_leb_total (a b : text) : text_leb a b = true \/ text_leb b a = true.
Proof.
  revert b. induction a as [|x a IH]; intros [|y b]; simpl; auto.
  rewrite !orb_true_iff, !andb_true_iff, !Z.ltb_lt, !Z.eqb_eq.
  destruct (Z.lt_trichotomy x y) as [?|[->|?]]; auto.
  destruct (IH b); auto.
Qed.

Lemma text_leb_antisym (a b : text) :
  text_leb a b = true -> text_leb b a = true -> a = b.
Proof.
  revert b. induction a as [|x a IH]; intros [|y b]; simpl; try done.
  rewrite !orb_true_iff, !andb_true_iff, !Z.ltb_lt, !Z.eqb_eq.
  intros [?|[-> ?]] [?|[? ?]]; try lia. f_equal; auto.
Qed.

#[local] Instance key_le_trans : Transitive key_le.
Proof. intros ???. unfold key_le. apply text_leb_trans. Qed.

#[local] Instance key_le_total : Total key_le.
Proof. intros ??. unfold key_le. apply text_leb_total. Qed.

Lemma assoc_In {A} (k : text) (d : list (text * A)) (y : A) :
  assoc k d = Some y -> In (k, y) d.
Proof.
  induction d as [|[k' x] d IH]; simpl; [done|].
  case_bool_decide; [intros [= <-]; subst; auto|auto].
Qed.

Lemma NoDup_fst_eq {A B} (l : list (A * B)) (x y : A * B) :
  List.NoDup (map fst l) -> In x l -> In y l -> x.1 = y.1 -> x = y.
Proof.
  induction l as [|z l IH]; simpl; [done|].
  intros Hnd. apply NoDup_cons_iff in Hnd as [Hz Hnd].
  intros [<-|Hx] [<-|Hy] Hxy; auto.
  - exfalso. apply Hz. rewrite Hxy. by apply in_map.
  - exfalso. apply Hz. rewrite <- Hxy. by apply in_map.
Qed.

Lemma struct_eq_list (l1 l2 : list pyval) :
  struct_eq (PList l1) (PList l2) = true ->
  Forall2 (fun x y => struct_eq x y = true) l1 l2.
Proof.
  revert l2. induction l1 as [|x l1 IH]; intros [|y l2] H; simpl in H; try done.
  apply andb_true_iff in H as [Hxy Hl]. constructor; [done|]. by apply IH.
Qed.

Lemma struct_eq_dict (d1 d2 : list (text * pyval)) :
  struct_eq (PDict d1) (PDict d2) = true ->
  length d1 = length d2 /\
  forall k x, In (k, x) d1 -> exists y, assoc k d2 = Some y /\ struct_eq x y = true.
Proof.
  simpl. rewrite andb_true_iff, Nat.eqb_eq, forallb_forall.
  intros [Hlen Hall]. split; [done|]. intros k x Hin.
  specialize (Hall _ Hin). simpl in Hall.
  destruct (assoc k d2) as [y|]; [eauto|discriminate].
Qed.

(** The serialisation of structurally equal well-formed values coincides. *)
Lemma dumps_struct_eq (v : pyval) :
  forall w, wf_val v = true -> wf_val w = true -> struct_eq v w = true ->
  dumps v = dumps w.
Proof.
  induction v as [| b | z | s | l IH | d IH] using pyval_ind';
    intros [| b' | z' | s' | l' | d'] Hv Hw Heq; try discriminate.
  - done.
  - simpl in Heq. apply Bool.eqb_prop in Heq. by subst.
  - simpl in Heq. apply Z.eqb_eq in Heq. by subst.
  - simpl in Heq. apply bool_decide_eq_true in Heq. by subst.
  - apply struct_eq_list in Heq. simpl in Hv, Hw |- *.
    assert (map dumps l = map dumps l') as ->; [|done].
    revert IH Hv Hw. induction Heq as [|x y l l' Hxy Hrest IHrest]; intros IH Hv Hw; [done|].
    simpl in Hv, Hw. apply andb_true_iff in Hv as [Hv1 Hv2].
    apply andb_true_iff in Hw as [Hw1 Hw2].
    inversion IH as [|? ? Hx IH']; subst.
    simpl. f_equal; [by apply Hx|]. by apply IHrest.
  - destruct (struct_eq_dict _ _ Heq) as [Hlen Hsub].
    simpl in Hv, Hw. apply andb_true_iff in Hv as [Hnd1 Hv].
    apply andb_true_iff in Hw as [Hnd2 Hw].
    apply bool_decide_eq_true, NoDup_ListNoDup in Hnd1.
    rewrite forallb_forall in Hv, Hw.
    set (A := map (fun kv => (kv.1, dumps kv.2)) d).
    set (B := map (fun kv => (kv.1, dumps kv.2)) d').
    assert (map fst A = map fst d) as HfA by (unfold A; rewrite map_map; done).
    assert (Permutation A B) as Hperm.
    { apply NoDup_Permutation_bis.
      - apply (NoDup_map_inv fst). by rewrite HfA.
      - unfold A, B. rewrite !length_map. lia.
      - intros [k s] Hin. unfold A in Hin. apply in_map_iff in Hin as [[k0 x] [[= <- <-] Hin]].
        destruct (Hsub _ _ Hin) as [y [Hy Hxy]].
        apply assoc_In in Hy.
        rewrite Forall_forall in IH.
        pose proof (IH (k0, x) (proj2 (list_elem_of_In _ _) Hin) y
                      (Hv _ Hin) (Hw _ Hy) Hxy) as E.
        simpl in E. rewrite E.
        unfold B. apply in_map_iff. exists (k0, y). done. }
    assert (sort_items A = sort_items B) as Hsort.
    { unfold sort_items. apply (Sorted_unique_strong key_le).
      - intros x1 x2 Hx1 Hx2 H12 H21. unfold key_le in H12, H21.
        apply (NoDup_fst_eq A); [by rewrite HfA| | |by apply text_leb_antisym].
        + apply list_elem_of_In. by rewrite <- (merge_sort_Permutation key_le A).
        + apply list_elem_of_In. rewrite Hperm. by rewrite <- (merge_sort_Permutation key_le B).
      - apply Sorted_merge_sort. exact key_le_total.
      - apply Sorted_merge_sort. exact key_le_total.
      - by rewrite !merge_sort_Permutation. }
    simpl. fold A B. by rewrite Hsort.
Qed.

(** C2: key derivation is deterministic and insensitive to field order:
    for every namespace, two well-formed payloads that are structurally
    equal (dicts compared as maps, whatever the order of their fields)
    get the same key, and that key is [namespace ++ ":" ++ digest], the
    digest being the MD5 hex digest of the payload's serialisation. *)
Theorem generate_key_order_independent (md5_hexdigest : text -> text)
    (ns : text) (p1 p2 : pyval) :
  wf_val p1 = true -> wf_val p2 = true -> struct_eq p1 p2 = true ->
  generate_key md5_hexdigest ns p1 = generate_key md5_hexdigest ns p2 /\
  generate_key md5_hexdigest ns p1 =
    ns ++ u ":" ++ md5_hexdigest (match p1 with PStr s => s | _ => dumps p1 end).
Proof.
  intros Hw1 Hw2 Heq. split; [|done].
  unfold generate_key. f_equal. f_equal. f_equal.
  destruct p1, p2; try discriminate; try (apply dumps_struct_eq; done).
  simpl in Heq. apply bool_decide_eq_true in Heq. by subst.
Qed.

Lemma generate_key_order_independent_witness :
  generate_key (fun s => take 32 s) (u "stock_data") payload_ab =
  generate_key (fun s => take 32 s) (u "stock_data") payload_ba /\
  generate_key (fun s => take 32 s) (u "stock_data") payload_ab =
    u "stock_data" ++ u ":" ++ take 32 (dumps payload_ab).
Proof.
  apply (generate_key_order_independent (fun s => take 32 s) (u "stock_data")
           payload_ab payload_ba); vm_compute; reflexivity.
Defined.

(* ------------------------------------------------------------------ *)
(** ** The cache store *)

Lemma set_raw_local (cm : cache_manager) (k : text) (v : pyval) (ttl : option Z) (now : Z) :
  redis_client cm = None -> 0 <= now -> 0 < ttl_or_default ttl ->
  now + ttl_or_default ttl * 1000000 <= DT_MAX ->
  set_raw cm k v ttl now =
    Ok {| redis_client := None;
          in_memory_cache := <[k := {| e_value := v;
                                      e_expires := now + ttl_or_default ttl * 1000000 |}]>
                               (in_memory_cache cm) |}.
Proof.
  intros Hc Hnow Hpos Hmax. unfold set_raw. rewrite Hc.
  set (t := ttl_or_default ttl) in *.
  unfold DT_MAX in Hmax.
  assert (0 <= t / 86400 <= 999999999).
  { split; [apply Z.div_pos; lia|apply Z.div_le_upper_bound; lia]. }
  unfold timedelta_seconds.
  replace ((-999999999 <=? t / 86400) && (t / 86400 <=? 999999999)) with true
    by (symmetry; apply andb_true_iff; split; apply Z.leb_le; lia).
  unfold dt_add.
  replace ((0 <=? now + t * 1000000) && (now + t * 1000000 <=? DT_MAX)) with true
    by (symmetry; apply andb_true_iff; split; apply Z.leb_le; unfold DT_MAX; lia).
  done.
Qed.

Lemma timedelta_seconds_ok s d : timedelta_seconds s = Ok d -> d = s * 1000000.
Proof.
  unfold timedelta_seconds. destruct (_ && _); [|discriminate]. intros H. injection H as <-. reflexivity.
Qed.

Lemma set_raw_local_neg (cm : cache_manager) (k : text) (v : pyval) (ttl : option Z) (now : Z) :
  redis_client cm = None -> now <= DT_MAX -> ttl_or_default ttl < 0 ->
  0 <= now + ttl_or_default ttl * 1000000 ->
  set_raw cm k v ttl now =
    Ok {| redis_client := None;
          in_memory_cache := <[k := {| e_value := v;
                                      e_expires := now + ttl_or_default ttl * 1000000 |}]>
                               (in_memory_cache cm) |}.
Proof.
  intros Hc Hnow Hneg Hmin. unfold set_raw. rewrite Hc.
  set (t := ttl_or_default ttl) in *.
  unfold DT_MAX in Hnow.
  assert (-999999999 <= t / 86400 <= 999999999).
  { split; [apply Z.div_le_lower_bound; lia | apply Z.div_le_upper_bound; lia]. }
  unfold timedelta_seconds.
  replace ((-999999999 <=? t / 86400) && (t / 86400 <=? 999999999)) with true
    by (symmetry; apply andb_true_iff; split; apply Z.leb_le; lia).
  unfold dt_add.
  replace ((0 <=? now + t * 1000000) && (now + t * 1000000 <=? DT_MAX)) with true
    by (symmetry; apply andb_true_iff; split; apply Z.leb_le; unfold DT_MAX; lia).
  done.
Qed.

(** C1 (as amended): with the store fallen back to the local map, let the
    effective ttl be the given one, or [CACHE_TTL] when it is [None] or
    [0]. A [set] whose effective ttl is positive and keeps the expiry
    inside the datetime range is read back by [get] at any instant before
    the expiry; a negative ttl whose expiry stays in range stores an entry
    that is already expired, which [get] reports absent from then on; an
    expiry outside the datetime range makes the body of [set] raise, so
    the store is unchanged; and a [get] at or after an entry's stored
    expiry returns [None] and deletes the entry. *)
Theorem local_cache_roundtrip_and_expiry :
  (forall (cm : cache_manager) (k : text) (v : pyval) (ttl : option Z) (now now' : Z),
     redis_client cm = None -> 0 <= now -> 0 < ttl_or_default ttl ->
     now + ttl_or_default ttl * 1000000 <= DT_MAX ->
     now <= now' < now + ttl_or_default ttl * 1000000 ->
     (cache_get (cache_set cm k v ttl now) k now').1 = Some v) /\
  (forall (cm : cache_manager) (k : text) (v : pyval) (ttl : option Z) (now : Z),
     redis_client cm = None -> now <= DT_MAX -> ttl_or_default ttl < 0 ->
     0 <= now + ttl_or_default ttl * 1000000 ->
     in_memory_cache (cache_set cm k v ttl now) !! k =
       Some {| e_value := v; e_expires := now + ttl_or_default ttl * 1000000 |} /\
     forall now', now <= now' -> (cache_get (cache_set cm k v ttl now) k now').1 = None) /\
  (forall (cm : cache_manager) (k : text) (v : pyval) (ttl : option Z) (now : Z),
     redis_client cm = None -> 0 <= now <= DT_MAX ->
     ~ (0 <= now + ttl_or_default ttl * 1000000 <= DT_MAX) ->
     cache_set cm k v ttl now = cm) /\
  (forall (cm : cache_manager) (k : text) (ent : entry) (now : Z),
     redis_client cm = None -> in_memory_cache cm !! k = Some ent ->
     e_expires ent <= now ->
     cache_get cm k now =
       (None, {| redis_client := None;
                 in_memory_cache := delete k (in_memory_cache cm) |})).
Proof.
  split; [|split; [|split]].
  - intros cm k v ttl now now' Hc Hnow Hpos Hmax Hwin.
    unfold cache_set. rewrite (set_raw_local cm k v ttl now Hc Hnow Hpos Hmax).
    unfold cache_get, get_raw. simpl. rewrite lookup_insert_eq. simpl.
    replace (now' <? now + ttl_or_default ttl * 1000000) with true
      by (symmetry; apply Z.ltb_lt; lia).
    done.
  - intros cm k v ttl now Hc Hnow Hneg Hmin.
    unfold cache_set. rewrite (set_raw_local_neg cm k v ttl now Hc Hnow Hneg Hmin).
    cbn [in_memory_cache]. rewrite lookup_insert_eq. split; [reflexivity|].
    intros now' Hle. unfold cache_get, get_raw. cbn [redis_client in_memory_cache].
    rewrite lookup_insert_eq. cbn [e_expires].
    replace (now' <? now + ttl_or_default ttl * 1000000) with false
      by (symmetry; apply Z.ltb_ge; lia).
    reflexivity.
  - intros cm k v ttl now Hc Hnow Hout.
    unfold cache_set, set_raw. rewrite Hc.
    destruct (timedelta_seconds (ttl_or_default ttl)) as [d|e] eqn:Hd; [|reflexivity].
    apply timedelta_seconds_ok in Hd. subst d. unfold dt_add.
    replace ((0 <=? now + ttl_or_default ttl * 1000000) &&
             (now + ttl_or_default ttl * 1000000 <=? DT_MAX)) with false; [reflexivity|].
    symmetry. apply andb_false_iff.
    destruct (Z.leb_spec 0 (now + ttl_or_default ttl * 1000000)); [|left; reflexivity].
    right. apply Z.leb_gt. lia.
  - intros cm k ent now Hc Hk Hexp.
    unfold cache_get, get_raw. rewrite Hc, Hk.
    replace (now <? e_expires ent) with false by (symmetry; apply Z.ltb_ge; lia).
    done.
Qed.

Lemma local_cache_roundtrip_and_expiry_witness :
  (cache_get (cache_set (init_cache None) (u "k") (PInt 7) (Some 300) now_2024)
     (u "k") (now_2024 + 1000000)).1 = Some (PInt 7) /\
  (cache_get (cache_set (init_cache None) (u "k") (PInt 7) (Some (-5)) now_2024)
     (u "k") now_2024).1 = None /\
  cache_set (init_cache None) (u "k") (PInt 7) (Some 400000000000) now_2024 =
    init_cache None /\
  cache_get cm_one_entry (u "k") 5 =
    (None, {| redis_client := None;
              in_memory_cache := delete (u "k") (in_memory_cache cm_one_entry) |}).
Proof.
  split; [|split; [|split]].
  - apply (proj1 local_cache_roundtrip_and_expiry);
      unfold now_2024, DT_MAX; cbn; try split; try reflexivity; lia.
  - apply (proj2 (proj1 (proj2 local_cache_roundtrip_and_expiry) (init_cache None) (u "k")
             (PInt 7) (Some (-5)) now_2024 eq_refl ltac:(unfold now_2024, DT_MAX; lia)
             ltac:(cbn; lia) ltac:(unfold now_2024; cbn; lia))).
    lia.
  - apply (proj1 (proj2 (proj2 local_cache_roundtrip_and_expiry))); [reflexivity| |];
      unfold now_2024, DT_MAX; cbn; lia.
  - apply (proj2 (proj2 (proj2 local_cache_roundtrip_and_expiry)) cm_one_entry
             (u "k") {| e_value := PInt 7; e_expires := 5 |} 5); [reflexivity| |simpl; lia].
    vm_compute. reflexivity.
Defined.

(** C1 fails as stated for a negative ttl: at a clock reading of
    2024-01-01, [set(k, v, -5)] stores the entry with an expiry five
    seconds in the past, so [get(k)] at the same instant reads nothing. *)
Lemma local_cache_roundtrip_negative_ttl :
  in_memory_cache (cache_set (init_cache None) (u "k") (PInt 7) (Some (-5)) now_2024) !! u "k" =
    Some {| e_value := PInt 7; e_expires := now_2024 - 5000000 |} /\
  (cache_get (cache_set (init_cache None) (u "k") (PInt 7) (Some (-5)) now_2024)
     (u "k") now_2024).1 <> Some (PInt 7).
Proof. split; [vm_compute; reflexivity | vm_compute; discriminate]. Qed.

Lemma run_ops_local (cm : cache_manager) (ops : list cache_op) :
  redis_client cm = None -> redis_client (run_ops cm ops) = None.
Proof.
  revert cm. induction ops as [|[k now|k v ttl now] ops IH]; intros cm Hc; simpl; [done| |].
  - apply IH. unfold cache_get, get_raw. rewrite Hc.
    destruct (in_memory_cache cm !! k) as [item|]; [|done].
    by destruct (now <? e_expires item).
  - apply IH. unfold cache_set, set_raw. rewrite Hc.
    destruct (timedelta_seconds _); [|done]. by destruct (dt_add _ _).
Qed.

(** C3: when the Redis client cannot be built or its [ping] fails, the
    store starts on an empty local map with no client, and no later [get]
    or [set] ever brings a client back; in that mode the body of [get]
    never raises, and [set] either stores the entry in the local map or,
    when its body raises, leaves the store unchanged; in every mode a
    raising [get] body reads as [None] and a raising [set] body is a
    no-op, so no exception reaches the caller. *)
Theorem redis_unavailable_local_fallback :
  (forall connect : option redis_server,
     match connect with Some srv => r_up srv = false | None => True end ->
     init_cache connect = {| redis_client := None; in_memory_cache := ∅ |}) /\
  (forall (cm : cache_manager) (ops : list cache_op),
     redis_client cm = None -> redis_client (run_ops cm ops) = None) /\
  (forall (cm : cache_manager) (k : text) (now : Z),
     redis_client cm = None -> exists r, get_raw cm k now = Ok r) /\
  (forall (cm : cache_manager) (k : text) (v : pyval) (ttl : option Z) (now : Z),
     redis_client cm = None ->
     cache_set cm k v ttl now = cm \/
     exists expires, cache_set cm k v ttl now =
       {| redis_client := None;
          in_memory_cache := <[k := {| e_value := v; e_expires := expires |}]>
                               (in_memory_cache cm) |}) /\
  (forall (cm : cache_manager) (k : text) (now : Z) (e : text),
     get_raw cm k now = Raise e -> cache_get cm k now = (None, cm)) /\
  (forall (cm : cache_manager) (k : text) (v : pyval) (ttl : option Z) (now : Z) (e : text),
     set_raw cm k v ttl now = Raise e -> cache_set cm k v ttl now = cm).
Proof.
  split; [|split; [|split; [|split; [|split]]]].
  - intros [srv|] H; unfold init_cache; [by rewrite H|done].
  - apply run_ops_local.
  - intros cm k now Hc. unfold get_raw. rewrite Hc.
    destruct (in_memory_cache cm !! k) as [item|]; [|eauto].
    destruct (now <? e_expires item); eauto.
  - intros cm k v ttl now Hc. unfold cache_set, set_raw. rewrite Hc.
    destruct (timedelta_seconds _) as [d|]; [|auto].
    destruct (dt_add now d) as [exp|]; [|auto]. right. eauto.
  - intros cm k now e H. unfold cache_get. by rewrite H.
  - intros cm k v ttl now e H. unfold cache_set. by rewrite H.
Qed.

Lemma redis_unavailable_local_fallback_witness :
  init_cache (Some {| r_up := false; r_data := ∅ |}) =
    {| redis_client := None; in_memory_cache := ∅ |} /\
  cache_set (init_cache None) (u "k") (PInt 7) (Some (10 ^ 15)) 1000000 = init_cache None.
Proof.
  split.
  - apply (proj1 redis_unavailable_local_fallback (Some {| r_up := false; r_data := ∅ |})).
    reflexivity.
  - apply (proj2 (proj2 (proj2 (proj2 (proj2 redis_unavailable_local_fallback))))
             (init_cache None) (u "k") (PInt 7) (Some (10 ^ 15)) 1000000
             (u "OverflowError")).
    vm_compute. reflexivity.
Defined.

(* ------------------------------------------------------------------ *)
(** ** The cached fetchers *)

Lemma cached_call_ext E ns payload ttl (f1 f2 : M pyval) h now w :
  (forall now' w', f1 now' w' = f2 now' w') ->
  cached_call E ns payload ttl f1 h now w = cached_call E ns payload ttl f2 h now w.
Proof.
  intros Hf. unfold cached_call, mbind, M_bind, try_except, cget.
  destruct (cache_get _ _ _) as [c cm1].
  destruct (truthy_opt c); [reflexivity|]. rewrite Hf. reflexivity.
Qed.

Lemma run_tool_cached_call E t ticker now w :
  run_tool E t ticker now w =
  cached_call E (tool_ns t) (tool_payload t ticker) (tool_ttl t)
    (now' ← get_now; emit (EvYfinance (tool_ns t) ticker);; lift (fetched E t now' ticker))
    (tool_on_error t ticker) now w.
Proof.
  destruct t; apply cached_call_ext; intros now' w';
  unfold yf_read, fetched, mbind, M_bind, outcome_bind, get_now, emit, lift, mret, M_ret, outcome_ret;
  [destruct (yf_stock E now' ticker) | destruct (yf_analyst E now' ticker)
  | destruct (yf_fundamentals E now' ticker) | destruct (yf_news E now' ticker)];
  reflexivity.
Qed.

(** One call of a cached fetcher whose body reads a provider once. *)
Lemma cached_call_run E ns payload ttl ev (F : Z -> outcome pyval) h now w :
  cached_call E ns payload ttl (now' ← get_now; emit ev;; lift (F now')) h now w =
  let key := generate_key (md5_hexdigest E) ns (PStr payload) in
  let '(c, cm1) := cache_get (w_cache w) key now in
  if truthy_opt c then (Ok (default PNone c), {| w_cache := cm1; w_trace := w_trace w |})
  else match F now with
       | Ok v => (Ok v, {| w_cache := cache_set cm1 key v (Some ttl) now;
                           w_trace := w_trace w ++ [ev] |})
       | Raise e => (Ok (h e), {| w_cache := cm1; w_trace := w_trace w ++ [ev] |})
       end.
Proof.
  unfold cached_call, mbind, M_bind, try_except, cget, get_now, emit, lift, cset, mret, M_ret.
  cbv zeta. destruct (cache_get _ _ _) as [c cm1].
  destruct (truthy_opt c); [reflexivity|]. destruct (F now); reflexivity.
Qed.

(** A read that found nothing usable finds nothing usable later either. *)
Lemma cache_get_miss_stays cm k t1 t2 :
  t1 <= t2 ->
  truthy_opt (cache_get cm k t1).1 = false ->
  truthy_opt (cache_get (cache_get cm k t1).2 k t2).1 = false.
Proof.
  intros Ht. unfold cache_get, get_raw.
  destruct (redis_client cm) as [srv|] eqn:Hc.
  - unfold redis_get. destruct (r_up srv) eqn:Hu.
    + destruct (r_data srv !! k) as [[v exp]|] eqn:Hl.
      * destruct (Z.ltb_spec t1 exp) as [Hlt|Hge]; simpl; rewrite Hc, Hu, Hl; intros H.
        -- destruct (t2 <? exp); [exact H | reflexivity].
        -- destruct (Z.ltb_spec t2 exp); [lia | reflexivity].
      * simpl. rewrite Hc, Hu, Hl. reflexivity.
    + simpl. rewrite Hc, Hu. reflexivity.
  - destruct (in_memory_cache cm !! k) as [item|] eqn:Hl.
    + destruct (Z.ltb_spec t1 (e_expires item)) as [Hlt|Hge]; simpl; intros H.
      * rewrite Hc, Hl. destruct (t2 <? e_expires item); exact H || reflexivity.
      * rewrite lookup_delete_eq. reflexivity.
    + simpl. rewrite Hc, Hl. reflexivity.
Qed.

Lemma run_tool_shape E t ticker now w :
  run_tool E t ticker now w =
  let '(c, cm1) := cache_get (w_cache w) (tool_key E t ticker) now in
  if truthy_opt c then (Ok (default PNone c), {| w_cache := cm1; w_trace := w_trace w |})
  else match fetched E t now ticker with
       | Ok v => (Ok v, {| w_cache := cache_set cm1 (tool_key E t ticker) v (Some (tool_ttl t)) now;
                           w_trace := w_trace w ++ [EvYfinance (tool_ns t) ticker] |})
       | Raise e => (Ok (tool_on_error t ticker e),
                     {| w_cache := cm1; w_trace := w_trace w ++ [EvYfinance (tool_ns t) ticker] |})
       end.
Proof. rewrite run_tool_cached_call, cached_call_run. reflexivity. Qed.

(** C10: a market-data fetcher writes the cache only with a value it
    fetched successfully; when the provider fails, the error value it
    returns is not stored, and the next call for the same ticker, on the
    store the failed call left, asks the provider again and returns what
    the provider answers then. *)
Theorem fetch_errors_not_cached E t ticker now1 now2 w e
    (Hmiss : truthy_opt (cache_get (w_cache w) (tool_key E t ticker) now1).1 = false)
    (Hfail : fetched E t now1 ticker = Raise e)
    (Hlater : now1 <= now2) :
  (forall now w0,
     let cm1 := (cache_get (w_cache w0) (tool_key E t ticker) now).2 in
     w_cache (run_tool E t ticker now w0).2 = cm1 \/
     exists v, fetched E t now ticker = Ok v /\
       w_cache (run_tool E t ticker now w0).2 =
       cache_set cm1 (tool_key E t ticker) v (Some (tool_ttl t)) now) /\
  (let w1 := (run_tool E t ticker now1 w).2 in
   (run_tool E t ticker now1 w).1 = Ok (tool_on_error t ticker e) /\
   w_cache w1 = (cache_get (w_cache w) (tool_key E t ticker) now1).2 /\
   w_trace (run_tool E t ticker now2 w1).2 = w_trace w1 ++ [EvYfinance (tool_ns t) ticker] /\
   (run_tool E t ticker now2 w1).1 =
     Ok (match fetched E t now2 ticker with
         | Ok v => v
         | Raise e' => tool_on_error t ticker e'
         end)).
Proof.
  split.
  - intros now w0. rewrite run_tool_shape. cbv zeta.
    destruct (cache_get (w_cache w0) (tool_key E t ticker) now) as [c cm1]; simpl.
    destruct (truthy_opt c); [left; reflexivity|].
    destruct (fetched E t now ticker) as [v|e']; [right; exists v; auto | left; reflexivity].
  - cbv zeta. rewrite (run_tool_shape E t ticker now1 w).
    pose proof (cache_get_miss_stays (w_cache w) (tool_key E t ticker) now1 now2 Hlater Hmiss)
      as Hmiss2.
    destruct (cache_get (w_cache w) (tool_key E t ticker) now1) as [c cm1]; simpl in *.
    rewrite Hmiss, Hfail. simpl.
    rewrite run_tool_shape. simpl.
    destruct (cache_get cm1 (tool_key E t ticker) now2) as [c2 cm2]; simpl in *.
    rewrite Hmiss2.
    repeat split; destruct (fetched E t now2 ticker); reflexivity.
Qed.

Lemma fetch_errors_not_cached_witness :
  let E := {| md5_hexdigest := fun s => take 32 s;
              yf_stock := fun now _ => if now <? 10 then Raise (u "HTTPError") else Ok (fun _ => PInt 1);
              yf_analyst := fun _ _ => Raise (u "HTTPError");
              yf_fundamentals := fun _ _ => Raise (u "HTTPError");
              yf_news := fun _ _ => Ok [];
              ddg_text := fun _ _ => Ok [];
              llm_invoke := fun _ _ => Raise (u "APIError");
              fmt_spec := fun _ v => Ok (py_str v) |} in
  let w := {| w_cache := init_cache None; w_trace := [] |} in
  truthy_opt (cache_get (w_cache w) (tool_key E StockData (u "AAPL")) 5).1 = false /\
  fetched E StockData 5 (u "AAPL") = Raise (u "HTTPError") /\
  5 <= 20 /\
  (run_tool E StockData (u "AAPL") 20 (run_tool E StockData (u "AAPL") 5 w).2).1 =
    Ok (ticker_dict (u "AAPL") stock_keys (fun _ => PInt 1)).
Proof.
  intros E w.
  assert (H1 : truthy_opt (cache_get (w_cache w) (tool_key E StockData (u "AAPL")) 5).1 = false)
    by (vm_compute; reflexivity).
  assert (H2 : fetched E StockData 5 (u "AAPL") = Raise (u "HTTPError")) by reflexivity.
  assert (H3 : 5 <= 20) by lia.
  refine (conj H1 (conj H2 (conj H3 _))).
  destruct (fetch_errors_not_cached E StockData (u "AAPL") 5 20 w (u "HTTPError") H1 H2 H3)
    as [_ [_ [_ [_ H]]]].
  rewrite H. reflexivity.
Defined.

(* ------------------------------------------------------------------ *)
(** ** The orchestrator's combine step *)

Lemma format_fallback_both fin web :
  nonempty fin = true -> nonempty web = true ->
  format_fallback fin web =
  join nl [u "## 📊 Données Financières (yfinance API)"; fin;
           nl ++ u "## 📰 Actualités (DuckDuckGo)"; web;
           nl ++ u "---";
           u "*Sources: yfinance API (données en temps réel), DuckDuckGo (actualités)*"].
Proof. intros Hf Hw. unfold format_fallback. rewrite Hf, Hw. reflexivity. Qed.

(** C7: when both blocks are non-empty and the synthesis call raises, the
    answer is the two labelled blocks followed by the fixed sources footer;
    when exactly one block is non-empty and the reformatting call raises,
    the answer is that block unchanged. *)
Theorem combine_llm_failure_fallback E q fin web now w e :
  (nonempty fin = true -> nonempty web = true ->
   llm_invoke E now (synthesis_prompt (lang_of synthesis_french_words q) fin web) = Raise e ->
   (combine_blocks E q fin web now w).1 =
   Ok (join nl [u "## 📊 Données Financières (yfinance API)"; fin;
                nl ++ u "## 📰 Actualités (DuckDuckGo)"; web;
                nl ++ u "---";
                u "*Sources: yfinance API (données en temps réel), DuckDuckGo (actualités)*"])) /\
  (nonempty fin = true -> nonempty web = false ->
   llm_invoke E now (reformat_prompt (u "financial") (lang_of reformat_french_words q) fin
                                     (u "yfinance API")) = Raise e ->
   (combine_blocks E q fin web now w).1 = Ok fin) /\
  (nonempty fin = false -> nonempty web = true ->
   llm_invoke E now (reformat_prompt (u "web") (lang_of reformat_french_words q) web
                                     (u "DuckDuckGo")) = Raise e ->
   (combine_blocks E q fin web now w).1 = Ok web).
Proof.
  unfold combine_blocks, strict_synthesis, reformat_data, try_except, invoke_llm,
    mbind, M_bind, emit, get_now, lift, mret, M_ret.
  repeat split; intros Hf Hw Hl; rewrite Hf, Hw; cbv zeta; cbn [andb].
  - rewrite Hl. rewrite <- format_fallback_both by assumption. reflexivity.
  - replace (bool_decide (u "financial" = u "financial")) with true
      by (vm_compute; reflexivity).
    rewrite Hl. reflexivity.
  - replace (bool_decide (u "web" = u "financial")) with false
      by (vm_compute; reflexivity).
    rewrite Hl. reflexivity.
Qed.

Lemma combine_llm_failure_fallback_witness :
  let E := example_env down down down down (fun _ v => Ok (py_str v)) in
  nonempty (u "price 1") = true /\ nonempty (u "1. headline") = true /\
  llm_invoke E 0 (synthesis_prompt (lang_of synthesis_french_words (u "AAPL news"))
                    (u "price 1") (u "1. headline")) = Raise (u "ConnectionError") /\
  (combine_blocks E (u "AAPL news") (u "price 1") (u "1. headline") 0 empty_world).1 =
  Ok (join nl [u "## 📊 Données Financières (yfinance API)"; u "price 1";
               nl ++ u "## 📰 Actualités (DuckDuckGo)"; u "1. headline";
               nl ++ u "---";
               u "*Sources: yfinance API (données en temps réel), DuckDuckGo (actualités)*"]).
Proof.
  intros E.
  assert (H1 : nonempty (u "price 1") = true) by reflexivity.
  assert (H2 : nonempty (u "1. headline") = true) by reflexivity.
  assert (H3 : llm_invoke E 0 (synthesis_prompt (lang_of synthesis_french_words (u "AAPL news"))
                 (u "price 1") (u "1. headline")) = Raise (u "ConnectionError")) by reflexivity.
  refine (conj H1 (conj H2 (conj H3 _))).
  exact (proj1 (combine_llm_failure_fallback E (u "AAPL news") (u "price 1") (u "1. headline")
                  0 empty_world (u "ConnectionError")) H1 H2 H3).
Defined.

(* ------------------------------------------------------------------ *)
(** ** Calls inside the steps *)

Lemma cache_get_client cm k now :
  redis_client (cache_get cm k now).2 = redis_client cm.
Proof.
  unfold cache_get, get_raw.
  destruct (redis_client cm) as [srv|] eqn:Hc.
  - destruct (redis_get srv k now); simpl; congruence.
  - destruct (in_memory_cache cm !! k) as [item|]; [|simpl; congruence].
    destruct (now <? e_expires item); simpl; congruence.
Qed.

Lemma cache_set_kind cm k v ttl now :
  client_kind (cache_set cm k v ttl now) = client_kind cm.
Proof.
  unfold cache_set, set_raw, client_kind.
  destruct (redis_client cm) as [srv|] eqn:Hc.
  - unfold redis_setex. destruct (r_up srv) eqn:Hu; [|simpl; rewrite Hc; reflexivity].
    destruct (0 <? ttl_or_default ttl); simpl; rewrite ?Hc; simpl; rewrite ?Hu; reflexivity.
  - destruct (timedelta_seconds _); [|simpl; rewrite Hc; reflexivity].
    destruct (dt_add _ _); simpl; rewrite ?Hc; reflexivity.
Qed.

Lemma quiet_ret {A} (a : A) : quiet (mret a).
Proof. intros now w. split; reflexivity. Qed.

Lemma quiet_bind {A B} (m : M A) (f : A -> M B) :
  quiet m -> (forall a, quiet (f a)) -> quiet (m ≫= f).
Proof.
  intros Hm Hf now w. unfold mbind, M_bind.
  destruct (Hm now w) as [H1 H2].
  destruct (m now w) as [[a|e] w'] eqn:E; simpl in *; [|split; assumption].
  destruct (Hf a now w') as [H3 H4]. split; congruence.
Qed.

Lemma quiet_lift {A} (o : outcome A) : quiet (lift o).
Proof. intros now w. split; reflexivity. Qed.

Lemma quiet_get_now : quiet get_now.
Proof. intros now w. split; reflexivity. Qed.

Lemma quiet_emit ev : step_event ev = false -> quiet (emit ev).
Proof.
  intros He now w. split; [reflexivity|]. simpl.
  unfold step_events. rewrite List.filter_app. simpl. rewrite He, app_nil_r. reflexivity.
Qed.

Lemma quiet_try {A} (m : M A) (h : text -> M A) :
  quiet m -> (forall e, quiet (h e)) -> quiet (try_except m h).
Proof.
  intros Hm Hh now w. unfold try_except.
  destruct (Hm now w) as [H1 H2].
  destruct (m now w) as [[a|e] w'] eqn:E; simpl in *; [split; assumption|].
  destruct (Hh e now w') as [H3 H4]. split; congruence.
Qed.

Lemma quiet_cget k : quiet (cget k).
Proof.
  intros now w. unfold cget.
  pose proof (cache_get_client (w_cache w) k now) as Hc.
  destruct (cache_get (w_cache w) k now) as [r cm'] eqn:E. simpl in *.
  unfold client_kind. rewrite Hc. split; reflexivity.
Qed.

Lemma quiet_cset k v ttl : quiet (cset k v ttl).
Proof. intros now w. split; [apply cache_set_kind | reflexivity]. Qed.

Create HintDb quiet.

Ltac quiet_step :=
  match goal with
  | |- quiet (mbind _ _) => apply quiet_bind; [|intro]
  | |- quiet (mret _) => apply quiet_ret
  | |- quiet (lift _) => apply quiet_lift
  | |- quiet get_now => apply quiet_get_now
  | |- quiet (emit _) => apply quiet_emit; reflexivity
  | |- quiet (cget _) => apply quiet_cget
  | |- quiet (cset _ _ _) => apply quiet_cset
  | |- quiet (try_except _ _) => apply quiet_try; [|intro]
  | |- quiet (let _ := _ in _) => cbv zeta
  | |- quiet (if ?b then _ else _) => destruct b
  | |- quiet (match ?x with _ => _ end) => destruct x
  | |- quiet _ => solve [eauto with quiet]
  end.

Ltac quiet_tac := repeat quiet_step.

Lemma quiet_cached_call E ns payload ttl fetch h :
  quiet fetch -> quiet (cached_call E ns payload ttl fetch h).
Proof. intros Hf. unfold cached_call. quiet_tac. Qed.
#[local] Hint Resolve quiet_cached_call : quiet.

Lemma quiet_yf_read {A} tool ticker (provider : env -> Z -> text -> outcome A) E :
  quiet (yf_read E tool ticker provider).
Proof. unfold yf_read. quiet_tac. Qed.
#[local] Hint Resolve quiet_yf_read : quiet.

Lemma quiet_run_tool E t ticker : quiet (run_tool E t ticker).
Proof.
  destruct t; unfold run_tool, get_stock_data, get_analyst_recommendations,
    get_fundamentals, get_company_news; apply quiet_cached_call; quiet_tac.
Qed.

Lemma quiet_search_web E q : quiet (search_web E q).
Proof. unfold search_web. apply quiet_cached_call. quiet_tac. Qed.
#[local] Hint Resolve quiet_search_web : quiet.

Lemma quiet_fetch_all_data E t : quiet (fetch_all_data E t).
Proof.
  unfold fetch_all_data.
  pose proof (quiet_run_tool E StockData t). pose proof (quiet_run_tool E AnalystRecs t).
  pose proof (quiet_run_tool E Fundamentals t). pose proof (quiet_run_tool E CompanyNews t).
  simpl in *. quiet_tac.
Qed.
#[local] Hint Resolve quiet_fetch_all_data : quiet.

Lemma quiet_web_search_response E q : quiet (web_search_response E q).
Proof. unfold web_search_response. quiet_tac. Qed.
#[local] Hint Resolve quiet_web_search_response : quiet.

Lemma quiet_agent_query E q : quiet (agent_query E q).
Proof. unfold agent_query. quiet_tac. Qed.
#[local] Hint Resolve quiet_agent_query : quiet.

Lemma quiet_fetch_web_data E q : quiet (fetch_web_data E q).
Proof. unfold fetch_web_data. quiet_tac. Qed.
#[local] Hint Resolve quiet_fetch_web_data : quiet.

Lemma quiet_combine_blocks E q fin web : quiet (combine_blocks E q fin web).
Proof.
  unfold combine_blocks, strict_synthesis, reformat_data, invoke_llm. quiet_tac.
Qed.
#[local] Hint Resolve quiet_combine_blocks : quiet.

(* ------------------------------------------------------------------ *)
(** ** The orchestrator's steps *)

Lemma nonempty_app_l (s t : text) : nonempty s = true -> nonempty (s ++ t) = true.
Proof. destruct s; [discriminate | reflexivity]. Qed.

Lemma join_nonempty sep p ps : nonempty p = true -> nonempty (join sep (p :: ps)) = true.
Proof. intros Hp. destruct ps; [exact Hp|]. simpl. apply nonempty_app_l, Hp. Qed.

Lemma Ok_nonempty (x s : text) : nonempty x = true -> Ok x = Ok s -> nonempty s = true.
Proof. intros Hx H. injection H as <-. exact Hx. Qed.

Lemma stock_part_head E t s l :
  stock_part E t s = Ok l -> exists x xs, l = x :: xs /\ nonempty x = true.
Proof.
  unfold stock_part, mbind, outcome_bind, mret, outcome_ret. cbv zeta.
  destruct (negb _).
  - destruct (truthy _);
    repeat match goal with |- context [fmt_spec E ?a ?b] => destruct (fmt_spec E a b) end;
    intros H; try discriminate; injection H as <-; eexists _, _; split; reflexivity.
  - intros H; injection H as <-. eexists _, _; split; reflexivity.
Qed.

Lemma format_response_nonempty E t d s :
  format_response E t d = Ok s -> nonempty s = true.
Proof.
  unfold format_response, mbind, outcome_bind, mret, outcome_ret.
  destruct (stock_part E t _) as [p1|] eqn:H1; [|discriminate].
  destruct (funds_part E _); [|discriminate].
  destruct (news_part _); [|discriminate].
  intros H; injection H as <-.
  destruct (stock_part_head E _ _ _ H1) as (x & xs & -> & Hx).
  apply join_nonempty, Hx.
Qed.

Lemma web_search_response_nonempty E q now w s :
  (web_search_response E q now w).1 = Ok s -> nonempty s = true.
Proof.
  unfold web_search_response, mbind, M_bind.
  destruct (search_web E q now w) as [[r|e] w']; cbv beta iota delta [fst]; [|discriminate].
  destruct (no_results r); cbv beta iota delta [fst mret M_ret]; apply Ok_nonempty;
    [reflexivity | apply join_nonempty, nonempty_app_l; reflexivity].
Qed.

Lemma agent_query_nonempty E q now w s :
  (agent_query E q now w).1 = Ok s -> nonempty s = true.
Proof.
  unfold agent_query.
  destruct (extract_ticker q) as [t|]; [|apply web_search_response_nonempty].
  unfold mbind, M_bind, lift.
  destruct (fetch_all_data E t now w) as [[d|e] w']; simpl; [|discriminate].
  apply format_response_nonempty.
Qed.

Lemma financial_step_block E q now w s :
  (financial_step E q now w).1 = Ok s -> nonempty s = needs_financial (analyze_query q).
Proof.
  unfold financial_step. cbv zeta.
  destruct (needs_financial (analyze_query q)).
  - unfold mbind at 1, M_bind at 1. apply agent_query_nonempty.
  - intros H; injection H as <-. reflexivity.
Qed.

Lemma step_events_app tr evs : step_events (tr ++ evs) = step_events tr ++ step_events evs.
Proof. apply List.filter_app. Qed.

Lemma financial_step_events E q now w :
  step_events (w_trace (financial_step E q now w).2) =
  step_events (w_trace w) ++
  (if needs_financial (analyze_query q) then [EvFinancialAgent q] else []).
Proof.
  unfold financial_step. cbv zeta.
  destruct (needs_financial (analyze_query q)); [|rewrite app_nil_r; reflexivity].
  unfold mbind at 1, M_bind at 1. simpl.
  rewrite (proj2 (quiet_agent_query E q now _)). simpl.
  rewrite step_events_app. reflexivity.
Qed.

Lemma web_step_events E q now w :
  step_events (w_trace (web_step E q now w).2) =
  step_events (w_trace w) ++
  (if needs_news (analyze_query q) || negb (needs_financial (analyze_query q))
   then [EvWebData q] else []).
Proof.
  unfold web_step. cbv zeta.
  destruct (_ || _); [|rewrite app_nil_r; reflexivity].
  unfold mbind at 1, M_bind at 1. simpl.
  rewrite (proj2 (quiet_fetch_web_data E q now _)). simpl.
  rewrite step_events_app. reflexivity.
Qed.

Lemma orchestrate_events E q key now w :
  step_events (w_trace (orchestrate E q key now w).2) =
  step_events (w_trace w) ++
  (if needs_financial (analyze_query q) then [EvFinancialAgent q] else []) ++
  (if (needs_news (analyze_query q) || negb (needs_financial (analyze_query q)))
      && is_ok (financial_step E q now w).1
   then [EvWebData q] else []).
Proof.
  pose proof (financial_step_events E q now w) as Hf.
  unfold orchestrate, mbind at 1, M_bind at 1.
  destruct (financial_step E q now w) as [[fin|e] w1]; simpl in *.
  - rewrite andb_true_r.
    pose proof (web_step_events E q now w1) as Hw.
    unfold mbind at 1, M_bind at 1.
    destruct (web_step E q now w1) as [[web|e] w2]; simpl in *.
    + unfold mbind at 1, M_bind at 1.
      pose proof (proj2 (quiet_combine_blocks E q fin web now w2)) as Hc.
      destruct (combine_blocks E q fin web now w2) as [[r|e] w3]; simpl in *.
      * unfold mbind, M_bind, cset, mret, M_ret. simpl. rewrite Hc, Hw, Hf, app_assoc. reflexivity.
      * rewrite Hc, Hw, Hf, app_assoc. reflexivity.
    + rewrite Hw, Hf, app_assoc. reflexivity.
  - rewrite andb_false_r, !app_nil_r. exact Hf.
Qed.

(** C4, counterexample: for "stock market today" no ticker resolves, yet
    the financial step, which the query triggers, yields a non-empty
    block, the agent's web-search answer. *)
Lemma orchestrator_no_ticker_block_nonempty :
  let E := example_env down down (fun _ _ => Ok []) down (fun _ v => Ok (py_str v)) in
  let q := u "stock market today" in
  extract_ticker q = None /\ needs_financial (analyze_query q) = true /\
  (financial_step E q 0 empty_world).1 = Ok (u "Could not find relevant information for your query.").
Proof. vm_compute. split; [reflexivity | split; reflexivity]. Qed.

(** C4 (amended): on a cache miss, provided the financial agent returns
    normally, the request queries the financial agent exactly when
    [needs_financial] holds and fetches the web block exactly when
    [needs_news] holds or [needs_financial] does not; the financial block
    is non-empty exactly when it is fetched, and with no resolvable ticker
    it is the agent's web-search answer; two empty blocks give the fixed
    message. *)
Theorem orchestrator_routing E q now w
    (Hmiss : truthy_opt (cache_get (w_cache w)
               (generate_key (md5_hexdigest E) (u "orchestrator") (PStr q)) now).1 = false) :
  let a := analyze_query q in
  let w1 := {| w_cache := (cache_get (w_cache w)
                 (generate_key (md5_hexdigest E) (u "orchestrator") (PStr q)) now).2;
               w_trace := w_trace w |} in
  (is_ok (financial_step E q now w1).1 = true ->
   step_events (w_trace (orch_query E q now w).2) =
     step_events (w_trace w) ++
     (if needs_financial a then [EvFinancialAgent q] else []) ++
     (if needs_news a || negb (needs_financial a) then [EvWebData q] else [])) /\
  (forall w' s, (financial_step E q now w').1 = Ok s -> nonempty s = needs_financial a) /\
  (extract_ticker q = None -> forall w', agent_query E q now w' = web_search_response E q now w') /\
  (forall w', combine_blocks E q [] [] now w' = (Ok (u "Could not find relevant information."), w')).
Proof.
  cbv zeta. split; [|split; [|split]].
  - intros Hok.
    unfold orch_query, mbind at 1, M_bind at 1, cget. cbv zeta.
    revert Hok.
    destruct (cache_get (w_cache w) _ now) as [c cm1]. cbn [fst snd] in *.
    intros Hok. rewrite Hmiss. unfold try_except.
    pose proof (orchestrate_events E q (generate_key (md5_hexdigest E) (u "orchestrator") (PStr q))
                  now {| w_cache := cm1; w_trace := w_trace w |}) as He.
    rewrite Hok, andb_true_r in He.
    destruct (orchestrate E q _ now _) as [[r|e] w2]; exact He.
  - intros w' s. apply financial_step_block.
  - intros Ht w'. unfold agent_query. rewrite Ht. reflexivity.
  - intros w'. reflexivity.
Qed.

Lemma orchestrator_routing_witness :
  let E := example_env down down (fun _ _ => Ok []) down (fun _ v => Ok (py_str v)) in
  let q := u "stock market today" in
  truthy_opt (cache_get (w_cache empty_world)
    (generate_key (md5_hexdigest E) (u "orchestrator") (PStr q)) 0).1 = false /\
  step_events (w_trace (orch_query E q 0 empty_world).2) = [EvFinancialAgent q; EvWebData q].
Proof.
  intros E q.
  assert (Hmiss : truthy_opt (cache_get (w_cache empty_world)
    (generate_key (md5_hexdigest E) (u "orchestrator") (PStr q)) 0).1 = false)
    by (vm_compute; reflexivity).
  split; [exact Hmiss|].
  destruct (orchestrator_routing E q 0 empty_world Hmiss) as [H _].
  rewrite H by (vm_compute; reflexivity). vm_compute. reflexivity.
Defined.

(* ------------------------------------------------------------------ *)
(** ** Repeating a query *)








(* ------------------------------------------------------------------ *)
(** ** Comparison reports *)

Lemma join_split sep x l : In x l -> exists a b, join sep l = a ++ x ++ b.
Proof.
  induction l as [|p ps IH]; [intros []|].
  intros [->|Hin].
  - destruct ps as [|q ps].
    + exists [], []. simpl. rewrite app_nil_r. reflexivity.
    + exists [], (sep ++ join sep (q :: ps)). reflexivity.
  - destruct (IH Hin) as (a & b & Hj).
    destruct ps as [|q ps]; [destruct Hin|].
    exists (p ++ sep ++ a), b. change (join sep (p :: q :: ps)) with (p ++ sep ++ join sep (q :: ps)).
    rewrite Hj, !app_assoc. reflexivity.
Qed.

Lemma contains_join k sep l x : In x l -> contains k x = true -> contains k (join sep l) = true.
Proof.
  intros Hin Hk. apply contains_spec in Hk as (a & b & ->).
  destruct (join_split sep _ l Hin) as (c & d & ->).
  replace (c ++ (a ++ k ++ b) ++ d) with ((c ++ a) ++ k ++ (b ++ d)) by (rewrite !app_assoc; reflexivity).
  apply contains_app.
Qed.

Lemma dict_set_in {A} k (v : A) d : In k (map fst (dict_set k v d)).
Proof.
  induction d as [|[k' v'] d IH]; simpl; [auto|].
  case_bool_decide; simpl; auto.
Qed.

Lemma dict_set_keep {A} k (v : A) d k' : In k' (map fst d) -> In k' (map fst (dict_set k v d)).
Proof.
  induction d as [|[k0 v0] d IH]; simpl; [intros []|].
  case_bool_decide as Heq; simpl; intros [Hk|Hk]; subst; auto.
Qed.

Lemma fetch_each_ok E ts d now w :
  exists d' w', fetch_each E ts d now w = (Ok d', w') /\
    (forall k, In k (map fst d) -> In k (map fst d')) /\
    (forall t, In t ts -> In (upper t) (map fst d')).
Proof.
  revert d w. induction ts as [|t ts IH]; intros d w.
  - exists d, w. split; [reflexivity|]. split; [auto|]. intros _ [].
  - change (fetch_each E (t :: ts) d now w) with
      (M_bind _ _ (fun data : pyval => fetch_each E ts (dict_set (upper t) data d))
        (try_except (fetch_all_data E (upper t))
                    (fun e => mret (PDict [(u "error", PStr e)]))) now w).
    assert (Hd : exists data w1, try_except (fetch_all_data E (upper t))
                    (fun e => mret (PDict [(u "error", PStr e)])) now w = (Ok data, w1)).
    { unfold try_except. destruct (fetch_all_data E (upper t) now w) as [[x|e] w1]; eauto. }
    destruct Hd as (data & w1 & Hd). unfold M_bind at 1. rewrite Hd.
    destruct (IH (dict_set (upper t) data d) w1) as (d' & w' & Hr & Hk & Ht).
    exists d', w'. split; [exact Hr|]. split.
    + intros k Hk'. apply Hk, dict_set_keep, Hk'.
    + intros t' [<-|Hin]; [apply Hk, dict_set_in | apply Ht, Hin].
Qed.

Lemma price_row_ticker E d t : contains t (price_row E d t) = true.
Proof. apply contains_spec. unfold price_row. cbv zeta. eexists _, _. reflexivity. Qed.

Lemma format_comparison_ticker E d t :
  In t (map fst d) -> contains t (format_comparison E d) = true.
Proof.
  intros Hin. unfold format_comparison. cbv zeta.
  apply (contains_join _ _ _ (price_row E d t)); [|apply price_row_ticker].
  apply in_or_app. right. apply in_or_app. left. apply in_map, Hin.
Qed.

Lemma format_comparison_headings E d h :
  In h comparison_headings -> contains h (format_comparison E d) = true.
Proof.
  intros Hin. unfold format_comparison. cbv zeta.
  apply (contains_join _ _ _ h); [|apply contains_spec; exists [], []; rewrite app_nil_r; reflexivity].
  unfold comparison_headings in Hin.
  destruct Hin as [<-|[<-|[<-|[<-|[]]]]]; rewrite ?elem_of_app;
    repeat (apply in_or_app; first [left; simpl; tauto | right]).
Qed.

(** C8, counterexample: the report lists the symbols upper-cased, so a
    symbol requested in lower case does not occur in it. *)
Lemma compare_stocks_lowercase_symbol :
  let E := example_env down down down down (fun _ v => Ok (py_str v)) in
  match (compare_stocks E [u "aapl"; u "msft"] 0 empty_world).1 with
  | Ok report => contains (u "aapl") report = false /\ contains (u "AAPL") report = true
  | Raise _ => False
  end.
Proof. vm_compute. split; reflexivity. Qed.

(** C8 (amended): fewer than 2 or more than 5 symbols give a fixed
    explanatory string and no call; 2 to 5 symbols give a report, never an
    exception, with the four section headings and every requested symbol
    upper-cased; a category whose data carries an error marker reads
    ["Error"], and an absent or [None] field reads ["N/A"]. *)
Theorem compare_stocks_report E tickers now w :
  ((length tickers < 2)%nat ->
   compare_stocks E tickers now w = (Ok (u "Please provide at least 2 tickers to compare."), w)) /\
  ((5 < length tickers)%nat ->
   compare_stocks E tickers now w = (Ok (u "Maximum 5 tickers allowed for comparison."), w)) /\
  ((2 <= length tickers <= 5)%nat ->
   exists all_data,
     (compare_stocks E tickers now w).1 = Ok (format_comparison E all_data) /\
     (forall t, In t tickers -> In (upper t) (map fst all_data)) /\
     (forall t, In t tickers -> contains (upper t) (format_comparison E all_data) = true) /\
     (forall h, In h comparison_headings -> contains h (format_comparison E all_data) = true)) /\
  (forall all_data t key subkey f d,
     assoc t all_data = Some d -> py_in (u "error") (py_get d key (PDict [])) = true ->
     get_val all_data t key subkey f = u "Error") /\
  (forall all_data t key subkey f d,
     assoc t all_data = Some d -> py_in (u "error") (py_get d key (PDict [])) = false ->
     is_na (py_get (py_get d key (PDict [])) subkey (PStr na)) = true ->
     get_val all_data t key subkey f = na).
Proof.
  split; [|split; [|split; [|split]]].
  - intros Hl. unfold compare_stocks. rewrite bool_decide_eq_true_2 by exact Hl. reflexivity.
  - intros Hl. unfold compare_stocks.
    rewrite bool_decide_eq_false_2 by lia. rewrite bool_decide_eq_true_2 by exact Hl.
    reflexivity.
  - intros Hl. unfold compare_stocks.
    rewrite bool_decide_eq_false_2 by lia. rewrite bool_decide_eq_false_2 by lia.
    destruct (fetch_each_ok E tickers [] now w) as (d' & w' & Hr & _ & Ht).
    exists d'. unfold mbind, M_bind. rewrite Hr. split; [reflexivity|].
    split; [exact Ht|]. split.
    + intros t Hin. apply format_comparison_ticker, Ht, Hin.
    + intros h Hh. apply format_comparison_headings, Hh.
  - intros all_data t key subkey f d Hd He. unfold get_val. rewrite Hd. cbv zeta.
    rewrite He. reflexivity.
  - intros all_data t key subkey f d Hd He Hna. unfold get_val. rewrite Hd. cbv zeta.
    rewrite He, Hna. reflexivity.
Qed.

Lemma compare_stocks_report_witness :
  let E := example_env down down down down (fun _ v => Ok (py_str v)) in
  (2 <= length [u "AAPL"; u "MSFT"] <= 5)%nat /\
  exists all_data,
    (compare_stocks E [u "AAPL"; u "MSFT"] 0 empty_world).1 = Ok (format_comparison E all_data) /\
    contains (u "MSFT") (format_comparison E all_data) = true.
Proof.
  intros E.
  assert (Hl : (2 <= length [u "AAPL"; u "MSFT"] <= 5)%nat) by (simpl; lia).
  split; [exact Hl|].
  destruct (proj1 (proj2 (proj2 (compare_stocks_report E [u "AAPL"; u "MSFT"] 0 empty_world))) Hl)
    as (d & Hr & _ & Hc & _).
  exists d. split; [exact Hr|].
  exact (Hc (u "MSFT") (or_intror (or_introl eq_refl))).
Defined.

(* ------------------------------------------------------------------ *)
(** ** Clearing the store *)

Lemma cache_get_cleared m cm p k now :
  (p = None \/ p = Some []) -> (cache_get (cache_clear m cm p) k now).1 = None.
Proof.
  intros Hp.
  assert (Hn : nonempty (match p with Some p => p | None => [] end) = false)
    by (destruct Hp as [->| ->]; reflexivity).
  unfold cache_clear. rewrite Hn.
  destruct (redis_client cm) as [srv|] eqn:Hc.
  - destruct (r_up srv) eqn:Hu.
    + reflexivity.
    + unfold cache_get, get_raw. rewrite Hc. unfold redis_get. rewrite Hu. reflexivity.
  - reflexivity.
Qed.

Lemma cache_clear_local_lookup m cm p k :
  redis_client cm = None -> p <> [] ->
  redis_client (cache_clear m cm (Some p)) = None /\
  in_memory_cache (cache_clear m cm (Some p)) !! k =
    if prefixb (p ++ u ":") k then None else in_memory_cache cm !! k.
Proof.
  intros Hc Hp. unfold cache_clear. rewrite Hc.
  assert (Hn : nonempty p = true) by (unfold nonempty; rewrite bool_decide_eq_false_2; auto).
  rewrite Hn. split; [reflexivity|]. cbn [in_memory_cache].
  destruct (in_memory_cache cm !! k) as [x|] eqn:Hl; rewrite map_lookup_filter, Hl;
    [|destruct (prefixb _ k); reflexivity].
  cbn [mbind option_bind]. case_guard as Hg; cbn [fst mbind option_bind mret option_ret] in *.
  - rewrite Hg. reflexivity.
  - destruct (prefixb (p ++ u ":") k); [reflexivity|contradiction].
Qed.

Lemma generate_key_prefixb md5 p d : prefixb (p ++ u ":") (generate_key md5 p d) = true.
Proof.
  apply prefixb_spec. unfold generate_key. cbv zeta. eexists. rewrite <- app_assoc. reflexivity.
Qed.

(** X1: [clear()] (no prefix, or an empty one) leaves a store on which
    every [get] returns absent, whichever backend is in use. *)
Theorem cache_clear_all_absent m cm p k now :
  (p = None \/ p = Some []) -> (cache_get (cache_clear m cm p) k now).1 = None.
Proof. apply cache_get_cleared. Qed.

Lemma cache_clear_all_absent_witness :
  (cache_get (cache_clear (fun _ _ => false) cm_one_entry None) (u "k") 0).1 = None.
Proof. apply cache_clear_all_absent. left. reflexivity. Defined.

(** X2: on the local map, [clear(prefix)] with a non-empty prefix removes
    exactly the entries whose key starts with [prefix + ":"] and keeps
    every other entry unchanged; so every key generated under that
    namespace reads as absent afterwards. *)
Theorem cache_clear_prefix_local m cm p :
  redis_client cm = None -> p <> [] ->
  redis_client (cache_clear m cm (Some p)) = None /\
  (forall k, in_memory_cache (cache_clear m cm (Some p)) !! k =
             if prefixb (p ++ u ":") k then None else in_memory_cache cm !! k) /\
  (forall md5 d now, (cache_get (cache_clear m cm (Some p)) (generate_key md5 p d) now).1 = None).
Proof.
  intros Hc Hp. split; [apply (cache_clear_local_lookup m cm p []); auto|]. split.
  - intros k. apply cache_clear_local_lookup; auto.
  - intros md5 d now.
    destruct (cache_clear_local_lookup m cm p (generate_key md5 p d) Hc Hp) as [Hc' Hl].
    rewrite generate_key_prefixb in Hl.
    unfold cache_get, get_raw. rewrite Hc', Hl. reflexivity.
Qed.

Lemma cache_clear_prefix_local_witness :
  redis_client cm_one_entry = None /\ u "orchestrator" <> [] /\
  (cache_get (cache_clear (fun _ _ => false) cm_one_entry (Some (u "orchestrator")))
             (generate_key (fun s => s) (u "orchestrator") (PStr (u "q"))) 0).1 = None.
Proof.
  assert (Hc : redis_client cm_one_entry = None) by reflexivity.
  assert (Hp : u "orchestrator" <> []) by discriminate.
  split; [exact Hc|]. split; [exact Hp|].
  exact (proj2 (proj2 (cache_clear_prefix_local (fun _ _ => false) cm_one_entry _ Hc Hp))
           (fun s => s) (PStr (u "q")) 0).
Defined.

Lemma try_except_events {A} (m : M A) (h : text -> M A) now w :
  (forall e now' w', (h e now' w').2 = w') ->
  (try_except m h now w).2 = (m now w).2.
Proof.
  intros Hh. unfold try_except. destruct (m now w) as [[a|e] w']; [reflexivity|apply Hh].
Qed.

(** X3: after [clear_memory], the next [query] is never served from the
    store: it runs the financial agent when the query needs financial
    data, and the web search otherwise. *)
Theorem clear_memory_forces_refresh m E q now now2 w :
  let w1 := (clear_memory m now w).2 in
  exists evs,
    step_events (w_trace (orch_query E q now2 w1).2) = step_events (w_trace w) ++ evs /\
    (if needs_financial (analyze_query q) then In (EvFinancialAgent q) evs
     else In (EvWebData q) evs).
Proof.
  cbv zeta. unfold orch_query. cbv zeta.
  set (key := generate_key (md5_hexdigest E) (u "orchestrator") (PStr q)).
  unfold mbind at 1, M_bind at 1, cget.
  pose proof (cache_get_cleared m (w_cache w) None key now2 (or_introl eq_refl)) as Hn.
  unfold clear_memory. cbn [snd w_cache w_trace] in *.
  destruct (cache_get (cache_clear m (w_cache w) None) key now2) as [c cm1]. cbn in Hn. subst c.
  cbn [truthy_opt].
  rewrite try_except_events by reflexivity.
  rewrite orchestrate_events. cbn [w_trace].
  eexists. split; [reflexivity|].
  destruct (needs_financial (analyze_query q)) eqn:Hf.
  - left. reflexivity.
  - unfold financial_step. cbv zeta. rewrite Hf. cbn. rewrite orb_true_r. left. reflexivity.
Qed.


(* ------------------------------------------------------------------ *)
(** ** Cached fetchers: hits, misses and failures *)

Lemma cache_set_then_get_ttl cm key v ttl now now2 :
  0 < ttl -> accepts_for cm now ttl -> now <= now2 < now + ttl * 1000000 ->
  cache_get (cache_set cm key v (Some ttl) now) key now2 =
  (Some v, cache_set cm key v (Some ttl) now).
Proof.
  unfold accepts_for, client_kind. intros Hpos Hb Ht.
  assert (Hd : ttl_or_default (Some ttl) = ttl)
    by (unfold ttl_or_default; destruct (Z.eqb_spec ttl 0); lia).
  destruct (redis_client cm) as [srv|] eqn:Hc; simpl in Hb.
  - unfold cache_set, set_raw. rewrite Hc. unfold redis_setex. rewrite Hb, Hd.
    destruct (Z.ltb_spec 0 ttl); [|lia].
    unfold cache_get, get_raw. cbn [redis_client r_up r_data]. unfold redis_get. cbn [r_up r_data].
    rewrite lookup_insert_eq.
    match goal with |- context [?a <? ?b] => destruct (Z.ltb_spec a b) end; [reflexivity|lia].
  - destruct Hb as [H0 Hmax].
    unfold cache_set. rewrite set_raw_local by (auto; rewrite Hd; lia).
    unfold cache_get, get_raw. cbn [redis_client in_memory_cache]. rewrite lookup_insert_eq.
    cbn [e_expires e_value]. rewrite Hd.
    match goal with |- context [?a <? ?b] => destruct (Z.ltb_spec a b) end; [reflexivity|lia].
Qed.

Lemma accepts_for_get cm k now now' ttl :
  accepts_for (cache_get cm k now').2 now ttl <-> accepts_for cm now ttl.
Proof. unfold accepts_for, client_kind. rewrite cache_get_client. reflexivity. Qed.

(** A falsy value written under [key] never reads as a hit. *)
Lemma cache_set_falsy_miss cm key v ttl now t :
  truthy v = false -> truthy_opt (cache_get cm key t).1 = false ->
  truthy_opt (cache_get (cache_set cm key v ttl now) key t).1 = false.
Proof.
  intros Hv Hm. unfold cache_set. destruct (set_raw cm key v ttl now) as [cm'|e] eqn:Hs; [|exact Hm].
  unfold set_raw in Hs. destruct (redis_client cm) as [srv|] eqn:Hc.
  - destruct (redis_setex srv key (ttl_or_default ttl) v now) as [srv'|e] eqn:Hr; [|discriminate].
    injection Hs as <-. unfold redis_setex in Hr.
    destruct (r_up srv); [|discriminate]. destruct (0 <? ttl_or_default ttl); [|discriminate].
    injection Hr as <-. unfold cache_get, get_raw. cbn [redis_client]. unfold redis_get.
    cbn [r_up r_data]. rewrite lookup_insert_eq. destruct (t <? _); [exact Hv|reflexivity].
  - destruct (timedelta_seconds (ttl_or_default ttl)) as [d|e]; [|discriminate].
    destruct (dt_add now d) as [exp|e]; [|discriminate].
    injection Hs as <-. unfold cache_get, get_raw. cbn [redis_client in_memory_cache].
    rewrite lookup_insert_eq. cbn [e_expires e_value]. destruct (t <? exp); [exact Hv|reflexivity].
Qed.

Lemma tool_ttl_pos t : 0 < tool_ttl t.
Proof. destruct t; cbn; lia. Qed.

(** [search_web] as a cached call whose fetch reads the clock first. *)
Lemma search_web_cached_call E q now w :
  search_web E q now w =
  cached_call E (u "web_search") q 300
    (now' ← get_now; emit (EvSearch q);;
     lift (results ← ddg_text E now' q; mret (PList (map (fields_dict web_keys) results))))
    (fun e => PList [PDict [(u "error", PStr e); (u "query", PStr q)]]) now w.
Proof.
  unfold search_web. apply cached_call_ext. intros now' w'.
  unfold mbind, M_bind, emit, get_now, lift, mret, M_ret, outcome_bind, outcome_ret.
  destruct (ddg_text E now' q); reflexivity.
Qed.

Lemma search_web_run E q now w :
  search_web E q now w =
  let key := generate_key (md5_hexdigest E) (u "web_search") (PStr q) in
  let '(c, cm1) := cache_get (w_cache w) key now in
  if truthy_opt c then (Ok (default PNone c), {| w_cache := cm1; w_trace := w_trace w |})
  else match ddg_text E now q with
       | Ok rs => (Ok (PList (map (fields_dict web_keys) rs)),
                   {| w_cache := cache_set cm1 key (PList (map (fields_dict web_keys) rs))
                                   (Some 300) now;
                      w_trace := w_trace w ++ [EvSearch q] |})
       | Raise e => (Ok (PList [PDict [(u "error", PStr e); (u "query", PStr q)]]),
                     {| w_cache := cm1; w_trace := w_trace w ++ [EvSearch q] |})
       end.
Proof.
  rewrite search_web_cached_call, cached_call_run. cbv zeta.
  destruct (cache_get _ _ _) as [c cm1]. destruct (truthy_opt c); [reflexivity|].
  unfold mbind, outcome_bind, mret, outcome_ret. destruct (ddg_text E now q); reflexivity.
Qed.


(** X4: a market-data tool whose fetch succeeds with a truthy value
    stores it; a second call for the same symbol before the ttl has
    elapsed returns the same value from the store, changes nothing and
    makes no provider call. *)
Theorem tool_cache_roundtrip E t ticker now1 now2 w v :
  truthy_opt (cache_get (w_cache w) (tool_key E t ticker) now1).1 = false ->
  fetched E t now1 ticker = Ok v -> truthy v = true ->
  accepts_for (w_cache w) now1 (tool_ttl t) ->
  now1 <= now2 < now1 + tool_ttl t * 1000000 ->
  (run_tool E t ticker now1 w).1 = Ok v /\
  run_tool E t ticker now2 (run_tool E t ticker now1 w).2 = (Ok v, (run_tool E t ticker now1 w).2).
Proof.
  intros Hmiss Hf Hv Hacc Ht.
  rewrite !run_tool_cached_call, !cached_call_run. cbv zeta.
  unfold tool_key in Hmiss.
  rewrite <- (accepts_for_get _ (generate_key (md5_hexdigest E) (tool_ns t) (PStr (tool_payload t ticker))) _ now1) in Hacc.
  destruct (cache_get (w_cache w) _ now1) as [c cm1]. cbn [fst snd] in *.
  rewrite Hmiss, Hf. cbn [fst snd w_cache w_trace]. split; [reflexivity|].
  rewrite cache_set_then_get_ttl by (auto using tool_ttl_pos).
  cbn [truthy_opt default]. rewrite Hv. reflexivity.
Qed.

Lemma tool_cache_roundtrip_witness :
  let E := example_env (fun _ _ => Ok (fun _ => PStr (u "N/A"))) down down down
                       (fun _ v => Ok (py_str v)) in
  let w1 := (run_tool E StockData (u "NVDA") 0 empty_world).2 in
  run_tool E StockData (u "NVDA") 1000 w1 =
  (Ok (ticker_dict (u "NVDA") stock_keys (fun _ => PStr (u "N/A"))), w1).
Proof.
  intros E w1.
  refine (proj2 (tool_cache_roundtrip E StockData (u "NVDA") 0 1000 empty_world _ _ _ _ _ _));
    [vm_compute; reflexivity | reflexivity | reflexivity | unfold accepts_for, DT_MAX; cbn; lia | cbn; lia].
Defined.

(** X5: a web search that returns results stores them for 300 seconds; the
    same search repeated within that time returns the same results from
    the store, changes nothing and does not query the search engine. *)
Theorem search_web_cache_roundtrip E q now1 now2 w rs :
  truthy_opt (cache_get (w_cache w) (generate_key (md5_hexdigest E) (u "web_search") (PStr q))
                        now1).1 = false ->
  ddg_text E now1 q = Ok rs -> rs <> [] ->
  accepts_for (w_cache w) now1 300 ->
  now1 <= now2 < now1 + 300 * 1000000 ->
  (search_web E q now1 w).1 = Ok (PList (map (fields_dict web_keys) rs)) /\
  search_web E q now2 (search_web E q now1 w).2 =
    (Ok (PList (map (fields_dict web_keys) rs)), (search_web E q now1 w).2).
Proof.
  intros Hmiss Hd Hne Hacc Ht.
  rewrite !search_web_run. cbv zeta.
  rewrite <- (accepts_for_get _ (generate_key (md5_hexdigest E) (u "web_search") (PStr q)) _ now1) in Hacc.
  destruct (cache_get (w_cache w) _ now1) as [c cm1]. cbn [fst snd] in *.
  rewrite Hmiss, Hd. cbn [fst snd w_cache w_trace]. split; [reflexivity|].
  rewrite cache_set_then_get_ttl by (auto; lia).
  cbn [truthy_opt default truthy].
  rewrite bool_decide_eq_false_2; [reflexivity|].
  destruct rs; [congruence|discriminate].
Qed.

Lemma search_web_cache_roundtrip_witness :
  let E := example_env down down (fun _ _ => Ok [fun _ => PStr (u "x")]) down
                       (fun _ v => Ok (py_str v)) in
  let w1 := (search_web E (u "hello") 0 empty_world).2 in
  search_web E (u "hello") 1000 w1 = (Ok (PList [fields_dict web_keys (fun _ => PStr (u "x"))]), w1).
Proof.
  intros E w1.
  refine (proj2 (search_web_cache_roundtrip E (u "hello") 0 1000 empty_world
                   [fun _ => PStr (u "x")] _ _ _ _ _));
    [vm_compute; reflexivity | reflexivity | discriminate | unfold accepts_for, DT_MAX; cbn; lia | lia].
Defined.

(** X6: a falsy result of a market-data tool (an empty news list for a
    symbol, say) is returned and written to the store, where it stays for
    the tool's ttl; yet a later call within that ttl does not serve it:
    it reads yfinance again. *)
Theorem empty_tool_result_stored_refetched E t ticker now1 now2 w v :
  truthy_opt (cache_get (w_cache w) (tool_key E t ticker) now1).1 = false ->
  fetched E t now1 ticker = Ok v -> truthy v = false ->
  accepts_for (w_cache w) now1 (tool_ttl t) ->
  now1 <= now2 < now1 + tool_ttl t * 1000000 ->
  let w1 := (run_tool E t ticker now1 w).2 in
  (run_tool E t ticker now1 w).1 = Ok v /\
  (cache_get (w_cache w1) (tool_key E t ticker) now2).1 = Some v /\
  w_trace (run_tool E t ticker now2 w1).2 = w_trace w1 ++ [EvYfinance (tool_ns t) ticker].
Proof.
  intros Hmiss Hf Hv Hacc Ht. cbv zeta.
  rewrite !run_tool_cached_call, !cached_call_run. cbv zeta.
  unfold tool_key in *.
  rewrite <- (accepts_for_get _ (generate_key (md5_hexdigest E) (tool_ns t) (PStr (tool_payload t ticker))) _ now1) in Hacc.
  destruct (cache_get (w_cache w) _ now1) as [c cm1]. cbn [fst snd] in *.
  rewrite Hmiss, Hf. cbn [fst snd w_cache w_trace].
  rewrite cache_set_then_get_ttl by (auto using tool_ttl_pos).
  cbn [fst truthy_opt]. rewrite Hv. split; [reflexivity|]. split; [reflexivity|].
  destruct (fetched E t now2 ticker); reflexivity.
Qed.

Lemma empty_tool_result_stored_refetched_witness :
  let E := example_env down (fun _ _ => Ok []) down down (fun _ v => Ok (py_str v)) in
  let w1 := (run_tool E CompanyNews (u "NVDA") now_2024 empty_world).2 in
  (cache_get (w_cache w1) (tool_key E CompanyNews (u "NVDA")) (now_2024 + 1000000)).1 =
    Some (PList []) /\
  w_trace (run_tool E CompanyNews (u "NVDA") (now_2024 + 1000000) w1).2 =
    w_trace w1 ++ [EvYfinance (u "company_news") (u "NVDA")].
Proof.
  intros E w1.
  refine (proj2 (empty_tool_result_stored_refetched E CompanyNews (u "NVDA") now_2024
                   (now_2024 + 1000000) empty_world (PList []) _ _ _ _ _));
    [vm_compute; reflexivity | reflexivity | reflexivity
    | unfold accepts_for, now_2024, DT_MAX; cbn; lia | cbn; lia].
Defined.

(** X15: a web search that finds nothing returns the empty list and
    writes it to the store for 300 seconds; yet the same search repeated
    within that time does not serve it: it queries the search engine
    again. *)
Theorem empty_search_stored_refetched E q now1 now2 w :
  truthy_opt (cache_get (w_cache w) (generate_key (md5_hexdigest E) (u "web_search") (PStr q))
                        now1).1 = false ->
  ddg_text E now1 q = Ok [] ->
  accepts_for (w_cache w) now1 300 ->
  now1 <= now2 < now1 + 300 * 1000000 ->
  let w1 := (search_web E q now1 w).2 in
  (search_web E q now1 w).1 = Ok (PList []) /\
  (cache_get (w_cache w1) (generate_key (md5_hexdigest E) (u "web_search") (PStr q)) now2).1 =
    Some (PList []) /\
  w_trace (search_web E q now2 w1).2 = w_trace w1 ++ [EvSearch q].
Proof.
  intros Hmiss Hd Hacc Ht. cbv zeta.
  rewrite !search_web_run. cbv zeta.
  rewrite <- (accepts_for_get _ (generate_key (md5_hexdigest E) (u "web_search") (PStr q)) _ now1) in Hacc.
  destruct (cache_get (w_cache w) _ now1) as [c cm1]. cbn [fst snd] in *.
  rewrite Hmiss, Hd. cbn [fst snd w_cache w_trace map].
  rewrite cache_set_then_get_ttl by (auto; lia).
  cbn [fst truthy_opt]. split; [reflexivity|]. split; [reflexivity|].
  destruct (ddg_text E now2 q); reflexivity.
Qed.

Lemma empty_search_stored_refetched_witness :
  let E := example_env down down (fun _ _ => Ok []) down (fun _ v => Ok (py_str v)) in
  let key := generate_key (md5_hexdigest E) (u "web_search") (PStr (u "hello")) in
  let w1 := (search_web E (u "hello") now_2024 empty_world).2 in
  (cache_get (w_cache w1) key (now_2024 + 1000000)).1 = Some (PList []) /\
  w_trace (search_web E (u "hello") (now_2024 + 1000000) w1).2 = w_trace w1 ++ [EvSearch (u "hello")].
Proof.
  intros E key w1.
  refine (proj2 (empty_search_stored_refetched E (u "hello") now_2024 (now_2024 + 1000000)
                   empty_world _ _ _ _));
    [vm_compute; reflexivity | reflexivity
    | unfold accepts_for, now_2024, DT_MAX; cbn; lia | unfold now_2024; lia].
Defined.


(** X7: when the search engine raises on a query that is not in the
    store, the agent's web-search answer is the fixed "could not find"
    message and the orchestrator's web block is empty; neither call
    raises, and the error is not stored. *)
Theorem search_failure_fallbacks E q now w e :
  (let key := generate_key (md5_hexdigest E) (u "web_search") (PStr q) in
   truthy_opt (cache_get (w_cache w) key now).1 = false ->
   ddg_text E now q = Raise e ->
   web_search_response E q now w =
   (Ok (u "Could not find relevant information for your query."),
    {| w_cache := (cache_get (w_cache w) key now).2; w_trace := w_trace w ++ [EvSearch q] |})) /\
  (let sq := simplify_query q in
   let key := generate_key (md5_hexdigest E) (u "web_search") (PStr sq) in
   truthy_opt (cache_get (w_cache w) key now).1 = false ->
   ddg_text E now sq = Raise e ->
   fetch_web_data E q now w =
   (Ok [], {| w_cache := (cache_get (w_cache w) key now).2; w_trace := w_trace w ++ [EvSearch sq] |})).
Proof.
  split; cbv zeta; intros Hmiss Hd.
  - unfold web_search_response, mbind at 1, M_bind at 1. rewrite search_web_run. cbv zeta.
    destruct (cache_get (w_cache w) _ now) as [c cm1]. cbn [fst snd] in *.
    rewrite Hmiss, Hd. reflexivity.
  - unfold fetch_web_data, try_except. cbv zeta. unfold mbind at 1, M_bind at 1.
    rewrite search_web_run. cbv zeta.
    destruct (cache_get (w_cache w) _ now) as [c cm1]. cbn [fst snd] in *.
    rewrite Hmiss, Hd. reflexivity.
Qed.

Lemma search_failure_fallbacks_witness :
  let E := example_env down down down down (fun _ v => Ok (py_str v)) in
  web_search_response E (u "hello") 0 empty_world =
  (Ok (u "Could not find relevant information for your query."),
   {| w_cache := (cache_get (w_cache empty_world)
                    (generate_key (md5_hexdigest E) (u "web_search") (PStr (u "hello"))) 0).2;
      w_trace := [EvSearch (u "hello")] |}).
Proof.
  intros E.
  exact (proj1 (search_failure_fallbacks E (u "hello") 0 empty_world (u "ConnectionError"))
           eq_refl eq_refl).
Defined.

(* ------------------------------------------------------------------ *)
(** ** Search narrowing and ticker resolution *)

Lemma simplify_keys_are_aliases kw term :
  In (kw, term) simplify_companies -> exists t, In (kw, t) TICKER_PATTERNS.
Proof.
  intros Hin.
  assert (Hall : forallb (fun p => existsb (fun r => bool_decide (r.1 = p.1)) TICKER_PATTERNS)
                   simplify_companies = true) by (vm_compute; reflexivity).
  rewrite forallb_forall in Hall. specialize (Hall _ Hin).
  apply existsb_exists in Hall. destruct Hall as [[k t] [Hin' Heq]].
  apply bool_decide_eq_true in Heq. cbn [fst] in Heq. subst k. eauto.
Qed.

Lemma find_alias_Some_in ql tbl t :
  find_alias ql tbl = Some t -> exists kw, In (kw, t) tbl /\ contains kw ql = true.
Proof.
  induction tbl as [|[kw t'] tbl IH]; cbn; [discriminate|].
  destruct (contains kw ql) eqn:Hc.
  - intros [= <-]. eauto.
  - intros H. destruct (IH H) as (kw' & Hin & Hc'). eauto.
Qed.

(** X8: [_simplify_query] narrows the web search to a company only when
    [_extract_ticker] also resolves a ticker for the same query: every
    keyword of its table is an alias of [TICKER_PATTERNS]. *)
Theorem simplify_query_implies_ticker q :
  simplify_query q <> q -> exists t, extract_ticker q = Some t.
Proof.
  unfold simplify_query. intros Hs.
  destruct (find_alias (lower q) simplify_companies) as [term|] eqn:Hf; [|congruence].
  destruct (find_alias_Some_in _ _ _ Hf) as (kw & Hin & Hc).
  destruct (simplify_keys_are_aliases _ _ Hin) as [t0 Ht0].
  unfold extract_ticker.
  destruct (find_alias (lower q) TICKER_PATTERNS) as [t|] eqn:Ht; [eauto|].
  exfalso. pose proof (find_alias_None _ _ Ht kw t0 Ht0). congruence.
Qed.

Lemma simplify_query_implies_ticker_witness :
  simplify_query (u "apple news") <> u "apple news" /\
  exists t, extract_ticker (u "apple news") = Some t.
Proof.
  assert (H : simplify_query (u "apple news") <> u "apple news") by (vm_compute; discriminate).
  split; [exact H | exact (simplify_query_implies_ticker _ H)].
Defined.


(* ------------------------------------------------------------------ *)
(** ** One row per distinct symbol in a comparison *)

Lemma dict_set_keys {A} k (v : A) d : map fst (dict_set k v d) = add_key (map fst d) k.
Proof.
  induction d as [|[k' v'] d IH]; cbn.
  - unfold add_key. rewrite bool_decide_eq_false_2 by set_solver. reflexivity.
  - case_bool_decide as Hk.
    + subst k'. unfold add_key. rewrite bool_decide_eq_true_2 by set_solver. reflexivity.
    + cbn. rewrite IH. unfold add_key.
      destruct (decide (k ∈ map fst d)) as [Hin|Hin].
      * rewrite !bool_decide_eq_true_2 by set_solver. reflexivity.
      * rewrite !bool_decide_eq_false_2 by set_solver. reflexivity.
Qed.

Lemma fetch_each_keys E ts d now w :
  exists d' w', fetch_each E ts d now w = (Ok d', w') /\
    map fst d' = fold_left add_key (map upper ts) (map fst d).
Proof.
  revert d w. induction ts as [|t ts IH]; intros d w.
  - exists d, w. split; reflexivity.
  - change (fetch_each E (t :: ts) d now w) with
      (M_bind _ _ (fun data : pyval => fetch_each E ts (dict_set (upper t) data d))
        (try_except (fetch_all_data E (upper t))
                    (fun e => mret (PDict [(u "error", PStr e)]))) now w).
    assert (Hd : exists data w1, try_except (fetch_all_data E (upper t))
                    (fun e => mret (PDict [(u "error", PStr e)])) now w = (Ok data, w1)).
    { unfold try_except. destruct (fetch_all_data E (upper t) now w) as [[x|e] w1]; eauto. }
    destruct Hd as (data & w1 & Hd). unfold M_bind at 1. rewrite Hd.
    destruct (IH (dict_set (upper t) data d) w1) as (d' & w' & Hr & Hk).
    exists d', w'. split; [exact Hr|]. rewrite Hk, dict_set_keys. reflexivity.
Qed.

Lemma add_key_NoDup ks k : NoDup ks -> NoDup (add_key ks k).
Proof.
  intros H. unfold add_key. case_bool_decide as Hk; [exact H|].
  apply NoDup_app. split; [exact H|]. split; [set_solver|]. apply NoDup_singleton.
Qed.

Lemma ordered_keys_NoDup_from l ks : NoDup ks -> NoDup (fold_left add_key l ks).
Proof.
  revert ks. induction l as [|k l IH]; intros ks H; [exact H|]. cbn. apply IH, add_key_NoDup, H.
Qed.

(** X9: [compare_stocks] keys its data by the upper-cased symbol, so
    symbols that differ only in case (or repeat) share one row: the rows
    of each table are the distinct upper-cased symbols, in order of first
    request, each once. *)
Theorem compare_stocks_one_row_per_symbol E tickers now w :
  (2 <= length tickers <= 5)%nat ->
  exists all_data,
    (compare_stocks E tickers now w).1 = Ok (format_comparison E all_data) /\
    map fst all_data = ordered_keys (map upper tickers) /\
    NoDup (map fst all_data).
Proof.
  intros Hl. unfold compare_stocks.
  rewrite bool_decide_eq_false_2 by lia. rewrite bool_decide_eq_false_2 by lia.
  destruct (fetch_each_keys E tickers [] now w) as (d' & w' & Hr & Hk).
  exists d'. unfold mbind, M_bind. rewrite Hr. split; [reflexivity|].
  split; [exact Hk|]. rewrite Hk. apply ordered_keys_NoDup_from, NoDup_nil_2.
Qed.

Lemma compare_stocks_one_row_per_symbol_witness :
  let E := example_env down down down down (fun _ v => Ok (py_str v)) in
  (2 <= length [u "aapl"; u "AAPL"] <= 5)%nat /\
  exists all_data,
    (compare_stocks E [u "aapl"; u "AAPL"] 0 empty_world).1 = Ok (format_comparison E all_data) /\
    map fst all_data = [u "AAPL"].
Proof.
  intros E.
  assert (Hl : (2 <= length [u "aapl"; u "AAPL"] <= 5)%nat) by (cbn; lia).
  split; [exact Hl|].
  destruct (compare_stocks_one_row_per_symbol E _ 0 empty_world Hl) as (d & Hr & Hk & _).
  exists d. split; [exact Hr|]. rewrite Hk. vm_compute. reflexivity.
Defined.


(* ------------------------------------------------------------------ *)
(** ** [MemoryManager] *)

Lemma drop_min_length {A} (k : nat) (l : list A) : drop (Nat.min k (length l)) l = drop k l.
Proof.
  destruct (Nat.le_ge_cases k (length l)).
  - rewrite Nat.min_l by lia. reflexivity.
  - rewrite Nat.min_r by lia. rewrite !drop_ge by lia. reflexivity.
Qed.

Lemma py_slice_from_neg {A} (k : Z) (l : list A) :
  0 < k -> py_slice_from (- k) l = drop (length l - Z.to_nat k) l.
Proof.
  intros Hk. unfold py_slice_from. cbv zeta.
  destruct (Z.ltb_spec (- k) 0); [|lia]. f_equal. lia.
Qed.

Lemma py_slice_from_pos {A} (k : Z) (l : list A) :
  0 <= k -> py_slice_from k l = drop (Z.to_nat k) l.
Proof.
  intros Hk. unfold py_slice_from. cbv zeta.
  destruct (Z.ltb_spec k 0); [lia|].
  rewrite <- (drop_min_length (Z.to_nat k)). f_equal. lia.
Qed.

(** X10: with [max_history >= 1], [add_interaction] appends the new
    interaction and then keeps only the [max_history] most recent ones:
    the memory never holds more than [max_history] interactions, and the
    newest one is last. *)
Theorem add_interaction_keeps_recent mm ts ui ar md :
  1 <= max_history mm ->
  let it := {| i_timestamp := ts; i_user := ui; i_assistant := ar;
               i_metadata := if truthy md then md else PDict [] |} in
  let mm' := add_interaction mm ts ui ar md in
  max_history mm' = max_history mm /\
  memory mm' = drop (length (memory mm) + 1 - Z.to_nat (max_history mm)) (memory mm ++ [it]) /\
  Z.of_nat (length (memory mm')) = Z.min (Z.of_nat (length (memory mm)) + 1) (max_history mm) /\
  last (memory mm') = Some it.
Proof.
  intros Hmax it mm'.
  assert (Hm : memory mm' =
               drop (length (memory mm) + 1 - Z.to_nat (max_history mm)) (memory mm ++ [it])).
  { subst mm'. unfold add_interaction. cbn [memory max_history]. fold it.
    rewrite length_app. cbn [length].
    destruct (Z.gtb_spec (Z.of_nat (length (memory mm) + 1)) (max_history mm)).
    - rewrite py_slice_from_neg by lia. rewrite length_app. cbn [length]. reflexivity.
    - replace (length (memory mm) + 1 - Z.to_nat (max_history mm))%nat with O by lia.
      reflexivity. }
  split; [reflexivity|]. split; [exact Hm|]. rewrite Hm. split.
  - rewrite length_drop, length_app. cbn [length]. lia.
  - rewrite drop_app_le by lia. apply last_snoc.
Qed.

Lemma add_interaction_keeps_recent_witness :
  last (memory (add_interaction (new_memory 2) (u "t") (u "hi") (u "hello") PNone)) =
  Some {| i_timestamp := u "t"; i_user := u "hi"; i_assistant := u "hello";
          i_metadata := PDict [] |}.
Proof.
  exact (proj2 (proj2 (proj2 (add_interaction_keeps_recent (new_memory 2) (u "t") (u "hi")
                                (u "hello") PNone ltac:(cbn; lia))))).
Defined.

(** X11: with [max_history = 0] the trimming slice [memory[-0:]] is the
    whole list, so [add_interaction] never drops anything: the memory
    grows by one interaction per call, without bound. *)
Theorem add_interaction_unbounded_at_zero mm ts ui ar md :
  max_history mm = 0 ->
  memory (add_interaction mm ts ui ar md) =
  memory mm ++ [{| i_timestamp := ts; i_user := ui; i_assistant := ar;
                   i_metadata := if truthy md then md else PDict [] |}].
Proof.
  intros H0. unfold add_interaction. cbn [memory]. rewrite H0.
  destruct (_ >? 0); [|reflexivity].
  rewrite py_slice_from_pos by lia. reflexivity.
Qed.

Lemma add_interaction_unbounded_at_zero_witness :
  length (memory (add_interaction (add_interaction (new_memory 0) (u "t") (u "a") (u "b") PNone)
                    (u "t") (u "c") (u "d") PNone)) = 2%nat.
Proof.
  rewrite (add_interaction_unbounded_at_zero
             (add_interaction (new_memory 0) (u "t") (u "a") (u "b") PNone)
             (u "t") (u "c") (u "d") PNone eq_refl).
  reflexivity.
Defined.

(** X12: [get_conversation_history(limit)] gives two lines ("User: ...",
    "Assistant: ...") for each of the [limit] most recent interactions,
    oldest first; a missing or zero limit means [max_history]; a negative
    limit instead skips the [-limit] oldest interactions. *)
Theorem conversation_history_window mm l :
  (0 < l -> get_conversation_history mm (Some l) =
            flat_map history_lines (drop (length (memory mm) - Z.to_nat l) (memory mm))) /\
  (l < 0 -> get_conversation_history mm (Some l) =
            flat_map history_lines (drop (Z.to_nat (- l)) (memory mm))) /\
  get_conversation_history mm None = get_conversation_history mm (Some (max_history mm)) /\
  get_conversation_history mm (Some 0) = get_conversation_history mm (Some (max_history mm)).
Proof.
  unfold get_conversation_history. split; [|split; [|split]].
  - intros Hl. destruct (Z.eqb_spec l 0); [lia|]. rewrite py_slice_from_neg by lia. reflexivity.
  - intros Hl. destruct (Z.eqb_spec l 0); [lia|]. rewrite py_slice_from_pos by lia.
    reflexivity.
  - destruct (Z.eqb_spec (max_history mm) 0); reflexivity.
  - destruct (Z.eqb_spec (max_history mm) 0); reflexivity.
Qed.

Lemma conversation_history_window_witness :
  get_conversation_history
    (add_interaction (add_interaction (new_memory 10) (u "t") (u "a") (u "b") PNone)
       (u "t") (u "c") (u "d") PNone) (Some 1) = [u "User: c"; u "Assistant: d"].
Proof.
  rewrite (proj1 (conversation_history_window _ 1) ltac:(lia)).
  vm_compute. reflexivity.
Defined.


Lemma filter_sublist {A} (f : A -> bool) (l : list A) : sublist (List.filter f l) l.
Proof.
  induction l as [|x l IH]; cbn; [constructor|].
  destruct (f x); [apply sublist_skip, IH | apply sublist_cons, IH].
Qed.

Lemma relevant_count_small qw it : (length qw <= 1)%nat -> is_relevant qw it = false.
Proof.
  intros H. unfold is_relevant. cbv zeta.
  pose proof (List.filter_length_le (fun w => contains w (lower (i_user it ++ u " " ++ i_assistant it))) qw).
  destruct (Z.ltb_spec 1 (Z.of_nat (length (List.filter
             (fun w => contains w (lower (i_user it ++ u " " ++ i_assistant it))) qw)))); lia.
Qed.

(** X13: [get_context] answers "No relevant previous conversations." when
    the memory is empty or the query has fewer than two distinct words;
    otherwise it answers that message or lists between one and three
    interactions, oldest first, taken from the five most recent ones and
    each sharing at least two distinct query words. *)
Theorem get_context_shape mm q :
  let qw := remove_dups (split_ws (lower q)) in
  ((length qw <= 1)%nat \/ memory mm = [] ->
   get_context mm q = u "No relevant previous conversations.") /\
  (get_context mm q = u "No relevant previous conversations." \/
   exists its, its <> [] /\ (length its <= 3)%nat /\
     sublist its (py_slice_from (-5) (memory mm)) /\
     Forall (fun it => is_relevant qw it = true) its /\
     get_context mm q =
       join nl (u "Previous relevant conversations:" :: flat_map history_lines its)).
Proof.
  intros qw. unfold get_context. fold qw.
  set (recent := py_slice_from (-5) (memory mm)).
  set (relevant := List.filter (is_relevant qw) recent).
  split.
  - intros H. rewrite bool_decide_eq_false_2; [reflexivity|].
    assert (Hr : relevant = []).
    { subst relevant. destruct H as [H|H].
      + clearbody recent. induction recent as [|it r IH]; cbn; [reflexivity|].
        rewrite relevant_count_small by exact H. exact IH.
      + subst recent. rewrite H. reflexivity. }
    rewrite Hr. auto.
  - case_bool_decide as Hne; [right|left; reflexivity].
    exists (py_slice_from (-3) relevant).
    replace (py_slice_from (-3) relevant) with (drop (length relevant - 3) relevant)
      by (symmetry; exact (py_slice_from_neg 3 relevant ltac:(lia))).
    assert (Hlen : (1 <= length relevant)%nat) by (destruct relevant; cbn; [congruence|lia]).
    split; [|split; [|split; [|split; [|reflexivity]]]].
    + intros H0. apply (f_equal length) in H0. rewrite length_drop in H0. cbn in H0. lia.
    + rewrite length_drop. lia.
    + transitivity relevant; [apply sublist_drop|apply filter_sublist].
    + apply Forall_drop. apply List.Forall_forall. intros it Hin.
      subst relevant. apply filter_In in Hin. apply Hin.
Qed.

Lemma get_context_shape_witness :
  get_context (add_interaction (new_memory 10) (u "t") (u "apple stock") (u "up") PNone)
              (u "apple") = u "No relevant previous conversations.".
Proof.
  apply (proj1 (get_context_shape _ _)). left. vm_compute. lia.
Defined.


(* ------------------------------------------------------------------ *)
(** ** The financial agent when the market-data provider is down *)

Lemma cache_get_other_miss cm k1 k2 t :
  truthy_opt (cache_get cm k2 t).1 = false ->
  truthy_opt (cache_get (cache_get cm k1 t).2 k2 t).1 = false.
Proof.
  intros Hm. destruct (cache_get cm k1 t) as [r cm1] eqn:Hg. cbn [snd].
  assert (Hcm : cm1 = cm \/
                (redis_client cm = None /\
                 cm1 = {| redis_client := None; in_memory_cache := delete k1 (in_memory_cache cm) |})).
  { unfold cache_get, get_raw in Hg. destruct (redis_client cm) as [srv|] eqn:Hc.
    - destruct (redis_get srv k1 t); inversion Hg; subst; left; reflexivity.
    - destruct (in_memory_cache cm !! k1); [destruct (t <? _)|]; inversion Hg; subst;
        (left; reflexivity) || (right; split; reflexivity). }
  destruct Hcm as [->|[Hc ->]]; [exact Hm|].
  revert Hm. unfold cache_get, get_raw. rewrite Hc. cbn [redis_client in_memory_cache].
  destruct (decide (k1 = k2)) as [<-|Hne].
  - rewrite lookup_delete_eq. reflexivity.
  - rewrite lookup_delete_ne by exact Hne.
    destruct (in_memory_cache cm !! k2) as [it|]; [destruct (t <? e_expires it)|]; cbn; auto.
Qed.

Lemma run_tool_fail E tl ticker now w e :
  truthy_opt (cache_get (w_cache w) (tool_key E tl ticker) now).1 = false ->
  fetched E tl now ticker = Raise e ->
  run_tool E tl ticker now w =
  (Ok (tool_on_error tl ticker e),
   {| w_cache := (cache_get (w_cache w) (tool_key E tl ticker) now).2;
      w_trace := w_trace w ++ [EvYfinance (tool_ns tl) ticker] |}).
Proof.
  intros Hm Hf. rewrite run_tool_cached_call, cached_call_run. cbv zeta.
  unfold tool_key in *. destruct (cache_get _ _ _) as [c cm1]. cbn [fst snd] in *.
  rewrite Hm, Hf. reflexivity.
Qed.

(** X14: when [_extract_ticker] resolves a ticker, none of its four
    market-data entries is in the store, and every yfinance read raises
    [e], the financial agent does not raise: it answers with the single
    warning line "⚠️ Could not fetch stock data: e" followed by the three
    blank separator lines, having read yfinance once per tool. *)
Theorem agent_query_provider_down E q ticker now w e :
  extract_ticker q = Some ticker ->
  (forall tl, truthy_opt (cache_get (w_cache w) (tool_key E tl ticker) now).1 = false) ->
  yf_stock E now ticker = Raise e -> yf_analyst E now ticker = Raise e ->
  yf_fundamentals E now ticker = Raise e -> yf_news E now ticker = Raise e ->
  exists cm,
    agent_query E q now w =
    (Ok (u "⚠️ Could not fetch stock data: " ++ e ++ nl ++ nl ++ nl),
     {| w_cache := cm;
        w_trace := w_trace w ++ [EvYfinance (u "stock_data") ticker;
                                 EvYfinance (u "analyst_recs") ticker;
                                 EvYfinance (u "fundamentals") ticker;
                                 EvYfinance (u "company_news") ticker] |}).
Proof.
  intros Hx Hm Hs Ha Hf Hn. unfold agent_query. rewrite Hx.
  unfold fetch_all_data.
  change (get_stock_data E ticker) with (run_tool E StockData ticker).
  change (get_analyst_recommendations E ticker) with (run_tool E AnalystRecs ticker).
  change (get_fundamentals E ticker) with (run_tool E Fundamentals ticker).
  change (get_company_news E ticker) with (run_tool E CompanyNews ticker).
  unfold mbind, M_bind, try_except. cbv beta.
  rewrite (run_tool_fail E StockData ticker now w e (Hm StockData))
    by (cbn [fetched]; rewrite Hs; reflexivity).
  rewrite (run_tool_fail E AnalystRecs ticker now _ e)
    by (cbn [w_cache]; apply cache_get_other_miss, Hm || (cbn [fetched]; rewrite Ha; reflexivity)).
  rewrite (run_tool_fail E Fundamentals ticker now _ e)
    by (cbn [w_cache]; repeat apply cache_get_other_miss; apply Hm || (cbn [fetched]; rewrite Hf; reflexivity)).
  rewrite (run_tool_fail E CompanyNews ticker now _ e)
    by (cbn [w_cache]; repeat apply cache_get_other_miss; apply Hm || (cbn [fetched]; rewrite Hn; reflexivity)).
  unfold mret, M_ret, lift. cbv beta iota.
  eexists. apply pair_equal_spec. split.
  - unfold format_response. vm_compute. reflexivity.
  - f_equal. cbn [w_trace]. rewrite <- !app_assoc. reflexivity.
Qed.

Lemma agent_query_provider_down_witness :
  let E := example_env down down down down (fun _ v => Ok (py_str v)) in
  exists cm,
    agent_query E (u "NVDA price") 0 empty_world =
    (Ok (u "⚠️ Could not fetch stock data: " ++ u "ConnectionError" ++ nl ++ nl ++ nl),
     {| w_cache := cm;
        w_trace := [] ++ [EvYfinance (u "stock_data") (u "NVDA");
                          EvYfinance (u "analyst_recs") (u "NVDA");
                          EvYfinance (u "fundamentals") (u "NVDA");
                          EvYfinance (u "company_news") (u "NVDA")] |}).
Proof.
  intros E.
  apply (agent_query_provider_down E (u "NVDA price") (u "NVDA") 0 empty_world (u "ConnectionError"));
    [vm_compute; reflexivity | intros []; vm_compute; reflexivity
    | reflexivity | reflexivity | reflexivity | reflexivity].
Defined.
